(** * HttpWeChatBot: event normalisation, action dispatch and access control

    A shallow embedding of three source files of the bot client:
    - [wechatbot_client/com_wechat/message.py]   (module [Message] below),
    - [wechatbot_client/action_manager/manager.py] (module [Manager]),
    - [wechatbot_client/wechat/wechat.py]        (module [Gateway]),
    together with the properties of the written specification that concern
    them.

    Conventions.  A Python [str] is a list of code points.  A call that can
    raise returns an [outcome]; the classes of the exceptions are kept, since
    [except Exception] and [except IndexError] select by class.  Logging
    calls ([logger.debug], [log]) have no effect on any value studied here
    and are left out. *)

From Stdlib Require Import ZArith NArith List Lia Bool.
From Stdlib Require Import Strings.String Strings.Ascii DecimalString.
From stdpp Require Import base option list gmap.

Local Open Scope Z_scope.
Set Warnings "-register-all".

(* ===================================================================== *)
(** * Python values shared by the three modules *)
(* ===================================================================== *)

Module Py.

(** A [str]: its code points. *)
Definition str := list N.

(** An ASCII literal as a [str]. *)
Definition lit (s : string) : str :=
  List.map N_of_ascii (list_ascii_of_string s).

(** [a == b] on strings. *)
Definition str_eqb (a b : str) : bool := bool_decide (a = b).

(** [hay.startswith(needle)] *)
Fixpoint starts_with (needle hay : str) : bool :=
  match needle, hay with
  | [], _ => true
  | _ :: _, [] => false
  | a :: needle', b :: hay' => N.eqb a b && starts_with needle' hay'
  end.

(** [needle in hay] *)
Fixpoint contains (needle hay : str) : bool :=
  starts_with needle hay ||
  match hay with
  | [] => false
  | _ :: hay' => contains needle hay'
  end.

(** [s.split(sep)] for a one-character separator: never empty. *)
Fixpoint split_on (sep : N) (s : str) : list str :=
  match s with
  | [] => [[]]
  | c :: s' =>
      if N.eqb c sep then [] :: split_on sep s'
      else match split_on sep s' with
           | [] => [[c]]
           | w :: ws => (c :: w) :: ws
           end
  end.

(** The longest prefix of [s] whose characters satisfy [p], and the rest. *)
Fixpoint span (p : N -> bool) (s : str) : str * str :=
  match s with
  | [] => ([], [])
  | c :: s' =>
      if p c then let '(a, b) := span p s' in (c :: a, b) else ([], s)
  end.

(** [join] of the empty string: concatenation. *)
Definition join (l : list str) : str := List.concat l.

(** [str(n)] for an [int]. *)
Definition str_of_int (n : Z) : str :=
  lit (NilZero.string_of_int (Z.to_int n)).

(** Exception classes.  The last two derive from [BaseException] only. *)
Inductive exn : Type :=
| TypeError
| AttributeError
| KeyError
| IndexError
| UnboundLocalError
| ParseError
| WebSocketClosed
| RuntimeError
| SystemExit (code : Z)
| KeyboardInterrupt.

(** [isinstance(e, Exception)]. *)
Definition is_Exception (e : exn) : bool :=
  match e with
  | SystemExit _ | KeyboardInterrupt => false
  | _ => true
  end.

(** What evaluating an expression or a call gives. *)
Inductive outcome (A : Type) : Type :=
| Return (a : A)
| Raise (e : exn).
Arguments Return {A} a.
Arguments Raise {A} e.

Definition bind {A B} (o : outcome A) (k : A -> outcome B) : outcome B :=
  match o with
  | Return a => k a
  | Raise e => Raise e
  end.

Definition raises {A} (o : outcome A) : Prop := exists e, o = Raise e.

(** Reading a local variable: [UnboundLocalError] when no assignment to it
    has been executed. *)
Definition local {A} (v : option A) : outcome A :=
  match v with
  | Some a => Return a
  | None => Raise UnboundLocalError
  end.

(** ** Statements of a function body

    A statement either goes on to the next one, or leaves the function
    with [return], or raises.  What follows a [return] is not run. *)
Inductive flow (R A : Type) : Type :=
| Next (a : A)
| Returned (r : R)
| Raised (e : exn).
Arguments Next {R A} a.
Arguments Returned {R A} r.
Arguments Raised {R A} e.

Definition seq {R A B} (s : flow R A) (k : A -> flow R B) : flow R B :=
  match s with
  | Next a => k a
  | Returned r => Returned r
  | Raised e => Raised e
  end.

(** An expression used in a statement. *)
Definition eval {R A} (o : outcome A) : flow R A :=
  match o with
  | Return a => Next a
  | Raise e => Raised e
  end.

(** [return r] *)
Definition return_ {R} (r : R) : flow R unit := Returned r.

(** The value of a call whose body is [b]; falling off the end gives
    [None]. *)
Definition def {R} (b : flow (option R) unit) : outcome (option R) :=
  match b with
  | Next _ => Return None
  | Returned r => Return r
  | Raised e => Raise e
  end.

End Py.

Export Py.

Declare Scope py_scope.
Delimit Scope py_scope with py.
Notation "'let!' x := o 'in' k" := (Py.bind o (fun x => k))
  (at level 10, x pattern, k at level 200) : py_scope.
Notation "'do!' x := s 'in' k" := (Py.seq s (fun x => k))
  (at level 10, x pattern, k at level 200) : py_scope.
Local Open Scope py_scope.

(* ===================================================================== *)
(** * [xml.etree.ElementTree]: elements, [find], and a parser *)
(* ===================================================================== *)

Module ET.

Local Open Scope N_scope.

(** An [Element]: tag, attributes, the text before its first child, its
    children, and the text after its end tag ([tail]). *)
Inductive Element : Type :=
| mkElement (tag : Py.str) (attrib : list (Py.str * Py.str))
            (text : option Py.str) (children : list Element)
            (tail : option Py.str).

Definition tag (e : Element) : Py.str :=
  match e with mkElement t _ _ _ _ => t end.
Definition attrib (e : Element) : list (Py.str * Py.str) :=
  match e with mkElement _ a _ _ _ => a end.
Definition text (e : Element) : option Py.str :=
  match e with mkElement _ _ x _ _ => x end.
Definition children (e : Element) : list Element :=
  match e with mkElement _ _ _ c _ => c end.
Definition tail (e : Element) : option Py.str :=
  match e with mkElement _ _ _ _ x => x end.

Definition set_tail (x : option Py.str) (e : Element) : Element :=
  match e with mkElement t a tx c _ => mkElement t a tx c x end.

(** [e.findall("./t1/t2/...")]: the path is given by its child tags. *)
Fixpoint findall (path : list Py.str) (es : list Element) : list Element :=
  match path with
  | [] => es
  | t :: path' =>
      findall path'
        (List.flat_map
           (fun e => List.filter (fun c => Py.str_eqb (tag c) t) (children e))
           es)
  end.

(** [e.find("./t1/t2/...")]: the first match, or [None]. *)
Definition find (path : list Py.str) (e : Element) : option Element :=
  List.head (findall path [e]).

(** ** A parser for plain documents

    [ET.fromstring] is the standard library's (expat) parser.  The
    functions of [Message] take the parser as a parameter; the one below is
    the instance used on concrete payloads.  It reads documents made of
    elements, quoted attributes and character data, and answers
    [ParseError] on everything else, which for documents with entity or
    character references, comments, CDATA sections, processing
    instructions, a DOCTYPE, namespace prefixes, carriage returns or
    non-ASCII names is stricter than expat. *)

Definition is_space (c : N) : bool :=
  (N.eqb c 32 || N.eqb c 9 || N.eqb c 10)%bool.

Definition is_name_start (c : N) : bool :=
  ((N.leb 65 c && N.leb c 90) || (N.leb 97 c && N.leb c 122) || N.eqb c 95)%bool.

Definition is_name_char (c : N) : bool :=
  (is_name_start c || (N.leb 48 c && N.leb c 57) || N.eqb c 45 || N.eqb c 46)%bool.

(** Code points allowed in a document ([Char] of XML 1.0), without CR. *)
Definition is_xml_char (c : N) : bool :=
  (N.eqb c 9 || N.eqb c 10 || (N.leb 32 c && N.leb c 55295)
   || (N.leb 57344 c && N.leb c 65533)
   || (N.leb 65536 c && N.leb c 1114111))%bool.

(** Character data: no markup, no reference, and no [>] (which rules out
    the forbidden ["]]>"]). *)
Definition is_text_char (c : N) : bool :=
  (is_xml_char c && negb (N.eqb c 60) && negb (N.eqb c 38) && negb (N.eqb c 62))%bool.

Definition skip_space (s : Py.str) : Py.str := snd (Py.span is_space s).

Definition parse_name (s : Py.str) : option (Py.str * Py.str) :=
  match s with
  | c :: _ => if is_name_start c then Some (span is_name_char s) else None
  | [] => None
  end.

Definition has_key (k : Py.str) (l : list (Py.str * Py.str)) : bool :=
  List.existsb (fun kv => Py.str_eqb (fst kv) k) l.

(** The attributes of a start tag; stops in front of [>] or [/>]. *)
Fixpoint parse_attrs (fuel : nat) (seen : list (Py.str * Py.str)) (s : Py.str)
  : option (list (Py.str * Py.str) * Py.str) :=
  match fuel with
  | O => None
  | S fuel' =>
      let '(sp, r) := Py.span is_space s in
      match r with
      | 62 :: _ => Some (seen, r)
      | 47 :: 62 :: _ => Some (seen, r)
      | _ =>
          match sp, parse_name r with
          | _ :: _, Some (k, r1) =>
              match skip_space r1 with
              | 61 :: r2 =>
                  match skip_space r2 with
                  | q :: r3 =>
                      if (N.eqb q 34 || N.eqb q 39)%bool then
                        let '(v, r4) :=
                          span (fun c => (is_text_char c || N.eqb c 62
                                          || N.eqb c 34 || N.eqb c 39)
                                         && negb (N.eqb c q)
                                         && negb (N.eqb c 9)
                                         && negb (N.eqb c 10))%bool r3 in
                        match r4 with
                        | q' :: r5 =>
                            if (N.eqb q' q && negb (has_key k seen))%bool
                            then parse_attrs fuel' (seen ++ [(k, v)]) r5
                            else None
                        | [] => None
                        end
                      else None
                  | [] => None
                  end
              | _ => None
              end
          | _, _ => None
          end
      end
  end.

Definition opt_text (s : Py.str) : option Py.str :=
  match s with [] => None | _ => Some s end.

(** [parse_element] reads one element at the head of [s];
    [parse_content] reads what follows a start tag or a child, up to the
    end tag: the leading text, the children (each with its tail), and the
    input from the end tag on. *)
Fixpoint parse_element (fuel : nat) (s : Py.str) : option (Element * Py.str) :=
  match fuel with
  | O => None
  | S fuel' =>
      match s with
      | 60 :: r =>
          match parse_name r with
          | Some (name, r1) =>
              match parse_attrs (S (length r1)) [] r1 with
              | Some (attrs, 47 :: 62 :: r2) =>
                  Some (mkElement name attrs None [] None, r2)
              | Some (attrs, 62 :: r2) =>
                  match parse_content fuel' r2 with
                  | Some (tx, kids, 60 :: 47 :: r3) =>
                      match parse_name r3 with
                      | Some (name', r4) =>
                          match skip_space r4 with
                          | 62 :: r5 =>
                              if Py.str_eqb name' name
                              then Some (mkElement name attrs (opt_text tx) kids None, r5)
                              else None
                          | _ => None
                          end
                      | None => None
                      end
                  | _ => None
                  end
              | _ => None
              end
          | None => None
          end
      | _ => None
      end
  end
with parse_content (fuel : nat) (s : Py.str)
  : option (Py.str * list Element * Py.str) :=
  match fuel with
  | O => None
  | S fuel' =>
      let '(tx, r) := span is_text_char s in
      match r with
      | 60 :: 47 :: _ => Some (tx, [], r)
      | 60 :: _ =>
          match parse_element fuel' r with
          | Some (kid, r1) =>
              match parse_content fuel' r1 with
              | Some (tl, kids, r2) =>
                  Some (tx, set_tail (opt_text tl) kid :: kids, r2)
              | None => None
              end
          | None => None
          end
      | _ => None
      end
  end.

(** [ET.fromstring(s)] on plain documents. *)
Definition fromstring (s : Py.str) : outcome Element :=
  match parse_element (S (length s)) (skip_space s) with
  | Some (e, r) =>
      match skip_space r with
      | [] => Return e
      | _ :: _ => Raise ParseError
      end
  | None => Raise ParseError
  end.

End ET.

(* ===================================================================== *)
(** * [re]: the mention pattern of [handle_text] *)
(* ===================================================================== *)

Module Re.

Local Open Scope N_scope.

(** [\s] of a [str] pattern: the code points [c] with [chr(c).isspace()]. *)
Definition is_whitespace (c : N) : bool :=
  ((N.leb 9 c && N.leb c 13) || (N.leb 28 c && N.leb c 32)
   || N.eqb c 133 || N.eqb c 160 || N.eqb c 5760
   || (N.leb 8192 c && N.leb c 8202)
   || N.eqb c 8232 || N.eqb c 8233 || N.eqb c 8239 || N.eqb c 8287
   || N.eqb c 12288)%bool.

(** [[^@\s]] *)
Definition is_name (c : N) : bool :=
  (negb (N.eqb c 64) && negb (is_whitespace c))%bool.

(** A match of [(@[^@\s]+\s)] at the head of [s]: the matched text and
    what follows it.  The greedy run of [[^@\s]] stops in front of an [@],
    a whitespace or the end, and only a whitespace completes the match; a
    shorter run is followed by a character of the run, never by [\s]. *)
Definition match_at (s : Py.str) : option (Py.str * Py.str) :=
  match s with
  | 64 :: t =>
      match Py.span is_name t with
      | ((_ :: _) as run, sp :: rest) =>
          if is_whitespace sp then Some (64 :: run ++ [sp], rest) else None
      | _ => None
      end
  | _ => None
  end.

(** [re.search(regex, s) is not None] *)
Fixpoint search (s : Py.str) : bool :=
  match s with
  | [] => false
  | _ :: t => match match_at s with Some _ => true | None => search t end
  end.

(** [re.split(regex, s)], the pattern having one group: the text between
    matches alternates with the matched markers.  [cur] is the text read
    since the last match, latest character first. *)
Fixpoint split_from (fuel : nat) (cur : Py.str) (s : Py.str) : list Py.str :=
  match fuel with
  | O => [List.rev cur ++ s]
  | S fuel' =>
      match s with
      | [] => [List.rev cur]
      | c :: t =>
          match match_at s with
          | Some (mk, rest) => List.rev cur :: mk :: split_from fuel' [] rest
          | None => split_from fuel' (c :: cur) t
          end
      end
  end.

Definition split (s : Py.str) : list Py.str := split_from (length s) [] s.

End Re.

(* ===================================================================== *)
(** * [com_wechat/message.py]: raw messages to events *)
(* ===================================================================== *)

Module Message.

(** The raw message of the automation layer ([.model.Message]), with the
    fields the handlers read. *)
Record WechatMessage : Type := {
  type : Z;
  sender : Py.str;
  wxid : Py.str;
  self : Py.str;
  message : Py.str;
  extrainfo : Py.str;
  timestamp : Z;
  msgid : Z;
  filepath : Py.str;
  sign : Py.str;
  thumb_path : Py.str;
}.

(** [MessageSegment.text], [.mention], [.mention_all] *)
Inductive MessageSegment : Type :=
| text (s : Py.str)
| mention (user_id : Py.str)
| mention_all.

(** A [Message] is the sequence of its segments. *)
Definition Message := list MessageSegment.

Record BotSelf : Type := { user_id : Py.str }.

(** The events built by the handlers below, with the keyword arguments of
    their constructors.  [alt_message] holds the message whose [str()] the
    source passes: [Message.__str__] belongs to [onebot12], which is not
    part of these sources.  [message_id] of a delete event is the [text] of
    an element, which may be [None]. *)
Inductive Event : Type :=
| GroupMessageEvent (id : Py.str) (time : Z) (self : BotSelf)
    (message_id : Py.str) (message : Message) (alt_message : Message)
    (user_id : Py.str) (group_id : Py.str)
| PrivateMessageEvent (id : Py.str) (time : Z) (self : BotSelf)
    (message_id : Py.str) (message : Message) (alt_message : Message)
    (user_id : Py.str)
| GroupMessageDeleteEvent (id : Py.str) (time : Z) (self : BotSelf)
    (message_id : option Py.str) (group_id : Py.str) (user_id : Py.str)
    (operator_id : Py.str)
| PrivateMessageDeleteEvent (id : Py.str) (time : Z) (self : BotSelf)
    (message_id : option Py.str).

(** The segments of a message event. *)
Definition content (e : Event) : option Message :=
  match e with
  | GroupMessageEvent _ _ _ _ m _ _ _ => Some m
  | PrivateMessageEvent _ _ _ _ m _ _ => Some m
  | _ => None
  end.

(** The [MessageHandler] instance: its three paths (the file manager is
    used by the media handlers only). *)
Record MessageHandler : Type := {
  image_path : Py.str;
  voice_path : Py.str;
  wechat_path : Py.str;
}.

(** The objects a handler can be handed as an argument. *)
Inductive pyobj : Type :=
| OMsg (m : WechatMessage)
| OElem (e : ET.Element)
| OHandler (h : MessageHandler).

(** Reading a field of a raw message off an argument ([msg.message],
    [msg.extrainfo], ...): an [Element] or a [MessageHandler] has no such
    attribute. *)
Definition as_message (o : pyobj) : outcome WechatMessage :=
  match o with
  | OMsg m => Return m
  | _ => Raise AttributeError
  end.

(** A function object: its positional parameters, whether it was defined
    with [async def], and its body on the bound arguments. *)
Record pyfunc : Type := {
  params : list string;
  is_coroutine : bool;
  body : list pyobj -> outcome (option Event);
}.

(** Calling [f] on positional arguments: too few or too many of them is a
    [TypeError], raised before the body runs. *)
Definition call (f : pyfunc) (args : list pyobj) : outcome (option Event) :=
  if Nat.eqb (length args) (length (params f)) then body f args
  else Raise TypeError.

(** What the handlers take from outside this file. *)
Record Env : Type := {
  (** [ET.fromstring] *)
  ET_fromstring : Py.str -> outcome ET.Element;
  (** the value of [str(uuid4())] for the message at hand *)
  uuid4 : Py.str;
  (** [WxType.TEXT_MSG] and [WxType.GROUP_SYS_MSG], declared in [.type] *)
  TEXT_MSG : Z;
  GROUP_SYS_MSG : Z;
}.

(** ** The registries and their decorators *)

(** [add_handler(_tpye)(func)]: [HANDLE_DICT[_tpye] = func] *)
Definition add_handler (_tpye : Z) (func : pyfunc)
  (HANDLE_DICT : gmap Z pyfunc) : gmap Z pyfunc :=
  <[_tpye := func]> HANDLE_DICT.

(** [add_group_sys_handler(func)]: [GROUP_SYS_HANDLERS.append(func)] *)
Definition add_group_sys_handler (func : pyfunc)
  (GROUP_SYS_HANDLERS : list pyfunc) : list pyfunc :=
  GROUP_SYS_HANDLERS ++ [func].

(** ** [MessageHandler.handle_message] *)

(** [await c]: the value of the coroutine. *)
Definition await {A} (c : outcome A) : outcome A := c.

Definition handle_message (HANDLE_DICT : gmap Z pyfunc) (msg : WechatMessage)
  : outcome (option Event) :=
  let _type := type msg in
  match HANDLE_DICT !! _type with
  | None => Return None
  | Some handler =>
      if is_coroutine handler then await (call handler [OMsg msg])
      else call handler [OMsg msg]
  end.

(** ** [MessageHandler.handle_text] *)

(** The loop over [enumerate(msg_list)]; [at_list] is what is left of the
    mentioned identifiers.  At [index], [msg_list[index:]] is the list the
    recursion is at. *)
Fixpoint mention_loop (msg_list : list Py.str) (at_list : list Py.str)
  : Message :=
  match msg_list with
  | [] => []
  | one_msg :: rest =>
      if Re.search one_msg then
        match at_list with
        | [] =>
            (* IndexError of [at_list.pop(0)]: the rest as text; break *)
            [text (Py.join msg_list)]
        | at_one :: at_list' =>
            (if Py.str_eqb at_one (lit "notify@all") then mention_all
             else mention at_one) :: mention_loop rest at_list'
        end
      else text one_msg :: mention_loop rest at_list
  end.

(** [at_list = at_xml.text.split(",")], and [at_list.pop(0)] when
    [at_list[0]] is the empty string. *)
Definition at_list_of (at_text : option Py.str) : outcome (list Py.str) :=
  match at_text with
  | None => Raise AttributeError
  | Some t =>
      match Py.split_on 44%N t with
      | [] => Raise IndexError
      | [] :: at_list => Return at_list
      | at_list => Return at_list
      end
  end.

Definition handle_text_body (env : Env) (self_ msg : pyobj)
  : outcome (option Event) :=
  let! m := as_message msg in
  let raw_xml := extrainfo m in
  let! xml_obj := ET_fromstring env raw_xml in
  let at_xml := ET.find [lit "atuserlist"] xml_obj in
  let event_id := uuid4 env in
  match at_xml with
  | None =>
      let message_ : Message := [text (message m)] in
      if Py.contains (lit "@chatroom") (sender m) then
        Return (Some (GroupMessageEvent event_id (timestamp m)
                        {| user_id := self m |} (Py.str_of_int (msgid m))
                        message_ message_ (wxid m) (sender m)))
      else
        Return (Some (PrivateMessageEvent event_id (timestamp m)
                        {| user_id := self m |} (Py.str_of_int (msgid m))
                        message_ message_ (wxid m)))
  | Some at_xml =>
      (* the local [message] is assigned in the other branch only *)
      let message_ : option Message := None in
      let! at_list := at_list_of (ET.text at_xml) in
      let msg_list := Re.split (message m) in
      let new_msg := mention_loop msg_list at_list in
      let! alt := Py.local message_ in
      Return (Some (GroupMessageEvent event_id (timestamp m)
                      {| user_id := self m |} (Py.str_of_int (msgid m))
                      new_msg alt (wxid m) (sender m)))
  end.

(** [def handle_text(self, msg)] *)
Definition handle_text (env : Env) : pyfunc := {|
  params := ["self"; "msg"]%string;
  is_coroutine := false;
  body := fun args =>
    match args with
    | [self_; msg] => handle_text_body env self_ msg
    | _ => Raise TypeError
    end;
|}.

(** ** [MessageHandler.handle_group_sys] and [GroupSysMsgHandler.event] *)

(** The literal of [event]: "received a red packet, see it on the phone". *)
Definition red_bag_text : Py.str :=
  [25910; 21040; 32418; 21253; 65292; 35831; 22312; 25163; 26426; 19978;
   26597; 30475]%N.

(** [def event(cls, msg)]: both its [return]s give [None]. *)
Definition event : pyfunc := {|
  params := ["cls"; "msg"]%string;
  is_coroutine := false;
  body := fun args =>
    match args with
    | [cls; msg] =>
        let! m := as_message msg in
        if negb (Py.str_eqb (message m) red_bag_text) then Return None
        else Return None
    | _ => Raise TypeError
    end;
|}.

Definition GROUP_SYS_HANDLERS : list pyfunc :=
  add_group_sys_handler event [].

(** The loop [for handler in handlers: result = handler(...); if result
    is not None: break], and the value of [result] after it. *)
Fixpoint first_result (handlers : list pyfunc) (args : list pyobj)
  (result : option Event) : outcome (option Event) :=
  match handlers with
  | [] => Return result
  | handler :: handlers' =>
      let! result := call handler args in
      match result with
      | Some _ => Return result
      | None => first_result handlers' args result
      end
  end.

(** The whole body of [handle_group_sys], the statements after
    [return result] included. *)
Definition handle_group_sys_body (env : Env) (handlers : list pyfunc)
  (self_ msg : pyobj) : outcome (option Event) :=
  Py.def (
    do! m := Py.eval (as_message msg) in
    let raw_xml := message m in
    do! xml_obj := Py.eval (ET_fromstring env raw_xml) in
    do! result := Py.eval (first_result handlers [msg; OElem xml_obj] None) in
    do! _ := Py.return_ result in
    let event_id := uuid4 env in
    let raw_xml := message m in
    do! xml_obj := Py.eval (ET_fromstring env raw_xml) in
    let msg_obj := ET.find [lit "revokemsg"; lit "newmsgid"] xml_obj in
    match msg_obj with
    | None => Py.return_ None
    | Some msg_obj =>
        let message_id := ET.text msg_obj in
        if Py.contains (lit "@chatroom") (sender m) then
          Py.return_ (Some (GroupMessageDeleteEvent event_id (timestamp m)
                              {| user_id := self m |} message_id (sender m)
                              (wxid m) []))
        else
          Py.return_ (Some (PrivateMessageDeleteEvent event_id (timestamp m)
                              {| user_id := self m |} message_id))
    end).

(** [def handle_group_sys(self, msg)] *)
Definition handle_group_sys (env : Env) (handlers : list pyfunc) : pyfunc := {|
  params := ["self"; "msg"]%string;
  is_coroutine := false;
  body := fun args =>
    match args with
    | [self_; msg] => handle_group_sys_body env handlers self_ msg
    | _ => Raise TypeError
    end;
|}.

(** [HANDLE_DICT] after the decorators of the two handlers above have run,
    in the order of the file.  The nine other decorated handlers (image,
    voice, friend request, card, video, emoji, location, app, system) are
    registered the same way, each a function of [self] and [msg]; their
    bodies are not part of this development, and the statements about
    [handle_message] below hold for every registry. *)
Definition HANDLE_DICT (env : Env) : gmap Z pyfunc :=
  add_handler (GROUP_SYS_MSG env) (handle_group_sys env GROUP_SYS_HANDLERS)
    (add_handler (TEXT_MSG env) (handle_text env) ∅).

(** ** Concrete instances for the examples *)

(** The tags are WeChat's: 1 for text, 10002 for group system messages. *)
Definition env0 : Env := {|
  ET_fromstring := ET.fromstring;
  uuid4 := lit "7f1c2e0a-5b1d-4c3e-9a55-0d2f6b8e4a10";
  TEXT_MSG := 1;
  GROUP_SYS_MSG := 10002;
|}.

Definition handler0 : MessageHandler := {|
  image_path := lit "file/image";
  voice_path := lit "file/voice";
  wechat_path := lit "wechat";
|}.

(** The number of mention markers among the pieces of a split text. *)
Definition markers (msg_list : list Py.str) : nat :=
  length (List.filter Re.search msg_list).

(** The segments of the event a call returned, if it returned one. *)
Definition returned_content (o : outcome (option Event)) : option Message :=
  match o with
  | Return (Some e) => content e
  | _ => None
  end.

(** ** Sample messages *)

Definition raw (type_ : Z) (sender_ message_ extrainfo_ : string)
  : WechatMessage := {|
  type := type_;
  sender := lit sender_;
  wxid := lit "wx_bob";
  self := lit "wx_bot";
  message := lit message_;
  extrainfo := lit extrainfo_;
  timestamp := 1700000000;
  msgid := 42;
  filepath := [];
  sign := [];
  thumb_path := [];
|}.

(** The scenario of the specification: [atuserlist] is the root. *)
Definition alice_hello : WechatMessage :=
  raw 1 "123@chatroom" "@Alice hello" "<atuserlist>wx_alice</atuserlist>".

(** Two markers, one identifier, in the shape WeChat sends. *)
Definition two_markers_one_id : WechatMessage :=
  raw 1 "123@chatroom" "@A @B hi"
      "<msgsource><atuserlist>wx_a</atuserlist></msgsource>".

(** A text message whose attachment is cut short. *)
Definition truncated_xml : WechatMessage :=
  raw 1 "123@chatroom" "hello" "<msgsource>".

(** A message of a type nobody registered. *)
Definition unknown_type : WechatMessage :=
  raw 9999 "wx_carol" "hello" "<msgsource/>".

(** Group system messages: a recall notice, and a payload that is no XML. *)
Definition recall_notice : WechatMessage :=
  raw 10002 "123@chatroom"
      "<sysmsg><revokemsg><newmsgid>77</newmsgid></revokemsg></sysmsg>" "".

Definition not_xml : WechatMessage :=
  raw 10002 "123@chatroom" "revoked" "".

End Message.

(* ===================================================================== *)
(** * [action_manager/manager.py]: the action dispatcher *)
(* ===================================================================== *)

Module Manager.

(** The values that travel through the dispatcher: what a decoded frame
    can hold, and [ActionResponse] objects.  [ActionResponse] is declared
    in [.action], outside these sources: an instance is kept as the
    keyword arguments it was built with. *)
Inductive pyval : Type :=
| VNone
| VBool (b : bool)
| VInt (n : Z)
| VStr (s : Py.str)
| VList (l : list pyval)
| VDict (d : list (Py.str * pyval))
| ActionResponse (kwargs : list (string * pyval)).

(** [bool(v)] *)
Definition truthy (v : pyval) : bool :=
  match v with
  | VNone => false
  | VBool b => b
  | VInt n => negb (Z.eqb n 0)
  | VStr s => match s with [] => false | _ => true end
  | VList l => match l with [] => false | _ => true end
  | VDict d => match d with [] => false | _ => true end
  | ActionResponse _ => true
  end.

Fixpoint assoc {A} (k : Py.str) (d : list (Py.str * A)) : option A :=
  match d with
  | [] => None
  | (k', v) :: d' => if Py.str_eqb k' k then Some v else assoc k d'
  end.

(** [v[key]] for a string key: only a [dict] can be subscripted by one. *)
Definition getitem (v : pyval) (key : Py.str) : outcome pyval :=
  match v with
  | VDict d =>
      match assoc key d with
      | Some x => Return x
      | None => Raise KeyError
      end
  | _ => Raise TypeError
  end.

(** The items [for member in v] runs over. *)
Definition iter (v : pyval) : outcome (list pyval) :=
  match v with
  | VList l => Return l
  | VDict d => Return (List.map (fun kv => VStr (fst kv)) d)
  | VStr s => Return (List.map (fun c => VStr [c]) s)
  | _ => Raise TypeError
  end.

(** A keyword of a response ([r.status], [r.data]). *)
Fixpoint kwarg (name : string) (kwargs : list (string * pyval))
  : option pyval :=
  match kwargs with
  | [] => None
  | (n, v) :: kwargs' => if String.eqb n name then Some v else kwarg name kwargs'
  end.

Definition field (name : string) (r : pyval) : option pyval :=
  match r with
  | ActionResponse kwargs => kwarg name kwargs
  | _ => None
  end.

(** ** The automation capability *)

(** One call on [self.com_api]. *)
Record com_call : Type := { method : string; args : list pyval }.

(** The world outside the dispatcher: what [ComWechatApi] answers to a
    call, given the calls made before it, and
    [str((Path(file_path) / name).absolute())]. *)
Record World : Type := {
  respond : list com_call -> com_call -> outcome pyval;
  absolute_child : pyval -> Py.str -> outcome Py.str;
}.

(** What running a method gives: its outcome and the calls made on the
    capability so far; [OutOfFuel] when a loop was cut off. *)
Inductive result (A : Type) : Type :=
| Res (o : outcome A) (calls : list com_call)
| OutOfFuel.
Arguments Res {A} o calls.
Arguments OutOfFuel {A}.

Definition M (A : Type) : Type := list com_call -> result A.

Definition ret {A} (a : A) : M A := fun calls => Res (Return a) calls.
Definition raise {A} (e : exn) : M A := fun calls => Res (Raise e) calls.
Definition lift {A} (o : outcome A) : M A := fun calls => Res o calls.

Definition mbind {A B} (m : M A) (k : A -> M B) : M B :=
  fun calls =>
    match m calls with
    | Res (Return a) calls' => k a calls'
    | Res (Raise e) calls' => Res (Raise e) calls'
    | OutOfFuel => OutOfFuel
    end.

Notation "'run!' x := m 'in' k" := (mbind m (fun x => k))
  (at level 10, x pattern, k at level 200).

Fixpoint mapM {A B} (f : A -> M B) (l : list A) : M (list B) :=
  match l with
  | [] => ret []
  | a :: l' =>
      run! b := f a in
      run! bs := mapM f l' in
      ret (b :: bs)
  end.

Section WithWorld.

Variable w : World.

(** [self.com_api.<method>(<args>)] *)
Definition com (method_ : string) (args_ : list pyval) : M pyval :=
  fun calls =>
    let c := {| method := method_; args := args_ |} in
    Res (respond w calls c) (calls ++ [c]).

(** A method bound to the manager: its parameters after [self], each
    with its default if it has one, and its body on the bound values. *)
Record pymethod : Type := {
  params : list (Py.str * option pyval);
  body : list pyval -> M pyval;
}.

(** Binding [**kwargs] to the parameters: an unexpected keyword or a
    missing required one is a [TypeError]. *)
Fixpoint bind_params (ps : list (Py.str * option pyval))
  (kwargs : gmap Py.str pyval) : outcome (list pyval) :=
  match ps with
  | [] => Return []
  | (name, default) :: ps' =>
      let! v := match kwargs !! name, default with
                | Some v, _ => Return v
                | None, Some v => Return v
                | None, None => Raise TypeError
                end in
      let! vs := bind_params ps' kwargs in
      Return (v :: vs)
  end.

Definition known_keyword (ps : list (Py.str * option pyval)) (k : Py.str)
  : bool :=
  List.existsb (fun p => Py.str_eqb (fst p) k) ps.

Definition call_method (f : pymethod) (kwargs : gmap Py.str pyval)
  : M pyval :=
  if List.forallb (known_keyword (params f)) (List.map fst (map_to_list kwargs))
  then run! vs := lift (bind_params (params f) kwargs) in body f vs
  else raise TypeError.

(** An attribute of the manager: a method, or an object that cannot be
    called ([com_api]). *)
Inductive attribute : Type :=
| Method (f : pymethod)
| Object.

(** Calling [func] with the keyword arguments [kwargs]. *)
Definition call_attribute (func : attribute) (kwargs : gmap Py.str pyval)
  : M pyval :=
  match func with
  | Method f => call_method f kwargs
  | Object => raise TypeError
  end.

(** The manager as [getattr] sees it: its attributes by name. *)
Definition instance : Type := list (Py.str * attribute).

(** [getattr(self, name)] *)
Definition getattr (self : instance) (name : Py.str) : outcome attribute :=
  match assoc name self with
  | Some a => Return a
  | None => Raise AttributeError
  end.

(** ** [ApiManager.request] *)

Record ActionRequest : Type := {
  action : Py.str;
  request_params : gmap Py.str pyval;
}.

(** The two literals of [msg]: "request succeeded" and "internal
    service error...". *)
Definition msg_ok : Py.str := [35831; 27714; 25104; 21151]%N.
Definition msg_error : Py.str :=
  [20869; 37096; 26381; 21153; 38169; 35823; 46; 46; 46]%N.

(** [getattr] runs before the [try]; [except Exception] selects by class;
    the two responses are built with [status], [msg] and [data]. *)
Definition request (self : instance) (request_ : ActionRequest) : M pyval :=
  fun calls =>
    match getattr self (action request_) with
    | Raise e => Res (Raise e) calls
    | Return func =>
        match call_attribute func (request_params request_) calls with
        | Res (Return result_) calls' =>
            Res (Return (ActionResponse
                           [("status", VInt 200); ("msg", VStr msg_ok);
                            ("data", result_)]%string)) calls'
        | Res (Raise e) calls' =>
            if Py.is_Exception e then
              Res (Return (ActionResponse
                             [("status", VInt 500); ("msg", VStr msg_error);
                              ("data", VDict [])]%string)) calls'
            else Res (Raise e) calls'
        | OutOfFuel => OutOfFuel
        end
    end.

(** ** The methods of [ApiManager] *)

(** [exit(code)] raises [SystemExit]. *)
Definition exit {A} (code : Z) : M A := raise (SystemExit code).

(** [wait_for_login]: polls until the capability reports a login;
    [KeyboardInterrupt] ends the wait with [False].  [time.sleep(1)]
    only delays.  [fuel] bounds the number of polls. *)
Fixpoint wait_for_login (fuel : nat) : M pyval :=
  match fuel with
  | O => fun _ => OutOfFuel
  | S fuel' =>
      fun calls =>
        match com "is_wechat_login" [] calls with
        | Res (Return v) calls' =>
            if truthy v then Res (Return (VBool true)) calls'
            else wait_for_login fuel' calls'
        | Res (Raise KeyboardInterrupt) calls' =>
            Res (Return (VBool false)) calls'
        | r => r
        end
  end.

Definition init (fuel : nat) : M pyval :=
  run! ok := com "init" [] in
  if negb (truthy ok) then exit 0 else
  run! ok := com "init_wechat_pid" [] in
  if negb (truthy ok) then (run! _ := com "close" [] in exit 0) else
  run! ok := com "start_service" [] in
  if negb (truthy ok) then (run! _ := com "close" [] in exit 0) else
  run! ok := wait_for_login fuel in
  if negb (truthy ok) then (run! _ := com "close" [] in exit 0) else
  ret VNone.

Definition open_recv_msg (file_path : pyval) : M pyval :=
  run! _ := com "register_msg_event" [] in
  run! _ := com "start_receive_message" [] in
  run! img_file := lift (absolute_child w file_path (lit "image")) in
  run! _ := com "hook_image_msg" [VStr img_file] in
  run! voice_file := lift (absolute_child w file_path (lit "voice")) in
  run! _ := com "hook_voice_msg" [VStr voice_file] in
  ret VNone.

Definition close : M pyval :=
  run! _ := com "close" [] in
  ret VNone.

Definition get_wxid : M pyval :=
  run! info := com "get_self_info" [] in
  lift (getitem info (lit "wxId")).

Definition register_message_handler (func : pyval) : M pyval :=
  run! _ := com "register_message_handler" [func] in
  ret VNone.

(** ** The actions of [ActionManager] *)

Definition ok_response (data : pyval) : pyval :=
  ActionResponse
    [("status", VStr (lit "ok")); ("retcode", VInt 200); ("data", data)]%string.

(** The body of [send_message] is [pass]. *)
Definition send_message
  (detail_type message user_id group_id guild_id channel_id : pyval)
  : M pyval :=
  ret VNone.

Definition get_self_info : M pyval :=
  run! info := com "get_self_info" [] in
  run! user_id := lift (getitem info (lit "WxId")) in
  run! user_name := lift (getitem info (lit "Name")) in
  let data := VDict [(lit "user_id", user_id);
                     (lit "user_name", user_name);
                     (lit "user_displayname", VStr [])] in
  ret (ok_response data).

Definition get_user_info (user_id : pyval) : M pyval :=
  run! info := com "get_user_info" [user_id] in
  run! user_name := lift (getitem info (lit "Name")) in
  run! user_remark := lift (getitem info (lit "remark")) in
  let data := VDict [(lit "user_id", user_id);
                     (lit "user_name", user_name);
                     (lit "user_displayname", VStr []);
                     (lit "user_remark", user_remark)] in
  ret (ok_response data).

Definition get_friend_list : M pyval :=
  run! data := com "get_friend_list" [] in
  ret (ok_response data).

Definition get_group_info (group_id : pyval) : M pyval :=
  run! info := com "get_user_info" [group_id] in
  run! group_name := lift (getitem info (lit "name")) in
  let data := VDict [(lit "group_id", group_id);
                     (lit "group_name", group_name)] in
  ret (ok_response data).

Definition get_group_list : M pyval :=
  run! data := com "get_group_list" [] in
  ret (ok_response data).

Definition get_group_member_info (group_id user_id : pyval) : M pyval :=
  run! info := com "get_group_members" [group_id] in
  run! user_name := lift (getitem info (lit "name")) in
  let data := VDict [(lit "user_id", user_id);
                     (lit "user_name", user_name);
                     (lit "user_displayname", VStr [])] in
  ret (ok_response data).

Definition member_entry (member : pyval) : M pyval :=
  run! user_id := lift (getitem member (lit "wxid")) in
  run! user_name := lift (getitem member (lit "name")) in
  ret (VDict [(lit "user_id", user_id);
              (lit "user_name", user_name);
              (lit "user_displayname", VStr [])]).

Definition get_group_member_list (group_id : pyval) : M pyval :=
  run! info := com "get_group_members" [group_id] in
  run! members := lift (iter info) in
  run! data := mapM member_entry members in
  ret (ok_response (VList data)).

Definition set_group_name (group_id group_name : pyval) : M pyval :=
  run! _ := com "set_group_name" [group_id; group_name] in
  ret (ok_response VNone).

(** [leave_group] calls [delete_groupmember] without arguments. *)
Definition leave_group (group_id : pyval) : M pyval :=
  run! _ := com "delete_groupmember" [] in
  ret (ok_response VNone).

(** ** The manager object *)

Definition required (name : string) : Py.str * option pyval :=
  (lit name, None).
Definition optional (name : string) (default : pyval)
  : Py.str * option pyval :=
  (lit name, Some default).

(** The methods are read off their bound arguments; [bind_params] gives
    one value per parameter, so the last case of each is never taken. *)
Definition method0 (b : M pyval) : attribute :=
  Method {| params := []; body := fun _ => b |}.
Definition method1 (p1 : string) (b : pyval -> M pyval) : attribute :=
  Method {| params := [required p1];
            body := fun vs => match vs with
                              | [v1] => b v1
                              | _ => raise TypeError
                              end |}.
Definition method2 (p1 p2 : string) (b : pyval -> pyval -> M pyval)
  : attribute :=
  Method {| params := [required p1; required p2];
            body := fun vs => match vs with
                              | [v1; v2] => b v1 v2
                              | _ => raise TypeError
                              end |}.

(** Modelled from the spec: [add_action] is declared in [.check], which
    is not among the sources; following "a fixed, explicitly declared
    set of supported actions" it is taken to record the name of the
    function it decorates and to give the function back unchanged, as
    the decorators of [message.py] do. *)
Definition add_action (name : string) (ACTION_LIST : list Py.str)
  : list Py.str :=
  ACTION_LIST ++ [lit name].

(** The declared actions, in the order of the file. *)
Definition ACTION_LIST : list Py.str :=
  List.fold_left (fun l name => add_action name l)
    ["send_message"; "get_self_info"; "get_user_info"; "get_friend_list";
     "get_group_info"; "get_group_list"; "get_group_member_info";
     "get_group_member_list"; "set_group_name"; "leave_group"]%string [].

Definition is_declared (name : Py.str) : bool :=
  List.existsb (Py.str_eqb name) ACTION_LIST.

(** The attributes of an [ActionManager] instance that the two classes
    and [__init__] give it by name: the instance attribute [com_api],
    the actions, and the methods of [ApiManager].  A parameter [request]
    bound to a decoded value has no attribute [action], so the method
    [request] reached through [getattr] raises [AttributeError].  The
    attributes every object inherits from [object] are not listed. *)
Definition manager (fuel : nat) : instance :=
  [ (lit "com_api", Object);
    (lit "send_message",
      Method {| params := [required "detail_type"; required "message";
                           optional "user_id" VNone;
                           optional "group_id" VNone;
                           optional "guild_id" VNone;
                           optional "channel_id" VNone];
                body := fun vs =>
                  match vs with
                  | [a; b; c; d; e; f] => send_message a b c d e f
                  | _ => raise TypeError
                  end |});
    (lit "get_self_info", method0 get_self_info);
    (lit "get_user_info", method1 "user_id" get_user_info);
    (lit "get_friend_list", method0 get_friend_list);
    (lit "get_group_info", method1 "group_id" get_group_info);
    (lit "get_group_list", method0 get_group_list);
    (lit "get_group_member_info",
      method2 "group_id" "user_id" get_group_member_info);
    (lit "get_group_member_list",
      method1 "group_id" get_group_member_list);
    (lit "set_group_name", method2 "group_id" "group_name" set_group_name);
    (lit "leave_group", method1 "group_id" leave_group);
    (lit "init", method0 (init fuel));
    (lit "wait_for_login", method0 (wait_for_login fuel));
    (lit "open_recv_msg", method1 "file_path" open_recv_msg);
    (lit "close", method0 close);
    (lit "get_wxid", method0 get_wxid);
    (lit "request", method1 "request" (fun _ => raise AttributeError));
    (lit "register_message_handler",
      method1 "func" register_message_handler) ].

(** [name in dir(self)] for the attributes above. *)
Definition has_attribute (self : instance) (name : Py.str) : bool :=
  match assoc name self with Some _ => true | None => false end.

(** The response categories: [request] reports success with status 200
    and an internal error with status 500; the actions report success
    with status "ok". *)
Definition is_ok (r : pyval) : bool :=
  match field "status" r with
  | Some (VInt 200) => true
  | Some (VStr s) => Py.str_eqb s (lit "ok")
  | _ => false
  end.

Definition is_internal_error (r : pyval) : bool :=
  match field "status" r with
  | Some (VInt 500) => true
  | _ => false
  end.

End WithWorld.

(** ** Concrete instances for the examples *)

(** A capability that knows the bot as "abc" / "Bot", whose COM component
    is not registered ([init] answers [False]), and that answers [None]
    to every other call. *)
Definition world0 : World := {|
  respond := fun _ c =>
    if String.eqb (method c) "get_self_info" then
      Return (VDict [(lit "WxId", VStr (lit "abc"));
                     (lit "Name", VStr (lit "Bot"))])
    else if String.eqb (method c) "init" then Return (VBool false)
    else Return VNone;
  absolute_child := fun v name =>
    match v with
    | VStr p => Return (lit "/srv/bot/" ++ p ++ lit "/" ++ name)
    | _ => Raise TypeError
    end;
|}.

(** A request without parameters. *)
Definition plain_request (name : string) : ActionRequest :=
  {| action := lit name; request_params := ∅ |}.

End Manager.

(* ===================================================================== *)
(** * [wechat/wechat.py]: access control of accepted connections *)
(* ===================================================================== *)

Module Gateway.

(** [Config.onebot_access_token]: the configured secret, if any. *)
Record Config : Type := { onebot_access_token : option Py.str }.

(** [Request], [Response] and [WebSocket] of the driver, with the fields
    read here; [conn] tells connections apart. *)
Record Request : Type := { headers : gmap Py.str Py.str }.
Record Response : Type := { status_code : Z; content : Py.str }.
Record WebSocket : Type := { conn : nat; request : Request }.

(** [bool(s)] for an optional string: [None] and the empty string are
    false. *)
Definition truthy (s : option Py.str) : bool :=
  match s with
  | Some (_ :: _) => true
  | _ => false
  end.

(** What is done to a connection. *)
Inductive ws_op : Type :=
| Close (ws : WebSocket) (code : option Z) (reason : option Py.str).

(** How a call of [_handle_ws] stands once the frames at hand are used up:
    it returned after a rejection, it is suspended in [receive] with the
    session registered under [seq], or it ran to its end. *)
Inductive progress : Type :=
| Rejected
| Serving (seq : nat)
| Finished (o : outcome unit).

(** The first exception of the read loop; [None] while every turn so far
    went through.  A turn is [Return tt] when [receive] gave a frame that
    was decoded and handed on, [Raise e] when [receive] or the decoding
    raised [e]. *)
Fixpoint read_loop (incoming : list (outcome unit)) : option exn :=
  match incoming with
  | [] => None
  | Return _ :: incoming' => read_loop incoming'
  | Raise e :: _ => Some e
  end.

Section WithDriver.

(** [get_auth_bearer] of [.utils] and the [Driver] of
    [wechatbot_client.driver] are not among the sources: they are
    parameters.  [sessions d ws] says that [ws] is one of the
    connections event fan-out writes to in state [d]; registering adds
    at most the connection registered, unregistering adds none. *)
Variable get_auth_bearer : option Py.str -> option Py.str.
Variable Driver : Type.
Variable ws_connect : Driver -> WebSocket -> nat * Driver.
Variable ws_disconnect : Driver -> nat -> Driver.
Variable sessions : Driver -> WebSocket -> Prop.

Definition _check_access_token (config : Config) (request_ : Request)
  : option Response :=
  let token := get_auth_bearer (headers request_ !! lit "Authorization") in
  let access_token := onebot_access_token config in
  if truthy access_token && negb (bool_decide (access_token = token)) then
    let msg := if truthy token then lit "Authorization Header is invalid"
               else lit "Missing Authorization Header" in
    Some {| status_code := 403; content := msg |}
  else None.

(** The gateway as [_handle_ws] changes it: the driver and the
    operations done on connections. *)
Record state : Type := { driver : Driver; ops : list ws_op }.

(** [_handle_ws(websocket)], its read loop fed with [incoming]. *)
Definition _handle_ws (config : Config) (websocket : WebSocket)
  (incoming : list (outcome unit)) (st : state) : progress * state :=
  match _check_access_token config (request websocket) with
  | Some response =>
      (Rejected,
       {| driver := driver st;
          ops := ops st ++ [Close websocket (Some 1008) (Some (content response))] |})
  | None =>
      let '(seq, d) := ws_connect (driver st) websocket in
      match read_loop incoming with
      | None => (Serving seq, {| driver := d; ops := ops st |})
      | Some e =>
          (* finally: close the connection, unregister it *)
          (Finished (if Py.is_Exception e then Return tt else Raise e),
           {| driver := ws_disconnect d seq;
              ops := ops st ++ [Close websocket None None] |})
      end
  end.

(** The accepted connections handled one after the other, each as far as
    its frames go. *)
Fixpoint serve (config : Config)
  (conns : list (WebSocket * list (outcome unit))) (st : state) : state :=
  match conns with
  | [] => st
  | (websocket, incoming) :: conns' =>
      serve config conns' (snd (_handle_ws config websocket incoming st))
  end.

End WithDriver.

Arguments driver {Driver} s.
Arguments ops {Driver} s.
Arguments Build_state {Driver} driver ops.
Arguments _handle_ws get_auth_bearer {Driver} ws_connect ws_disconnect
  config websocket incoming st.
Arguments serve get_auth_bearer {Driver} ws_connect ws_disconnect
  config conns st.

(** ** Concrete instances for the examples *)

(** Modelled from the spec: [get_auth_bearer] ([.utils]) is missing; the
    header is "Authorization: Bearer <token>", so the token is what
    follows the scheme, and there is none without the header or the
    scheme. *)
Definition bearer_token (header : option Py.str) : option Py.str :=
  match header with
  | None => None
  | Some h =>
      if Py.starts_with (lit "Bearer ") h
      then Some (List.skipn 7 h) else None
  end.

(** Modelled from the spec: the [Driver] ([wechatbot_client.driver]) is
    missing; sessions get "a monotonically increasing sequence id
    assigned at accept time" and fan-out writes to the registered ones. *)
Record Driver0 : Type := { next_seq : nat; connects : gmap nat WebSocket }.

Definition ws_connect0 (d : Driver0) (ws : WebSocket) : nat * Driver0 :=
  (next_seq d,
   {| next_seq := S (next_seq d); connects := <[next_seq d := ws]> (connects d) |}).

Definition ws_disconnect0 (d : Driver0) (seq : nat) : Driver0 :=
  {| next_seq := next_seq d; connects := delete seq (connects d) |}.

Definition sessions0 (d : Driver0) (ws : WebSocket) : Prop :=
  exists seq, connects d !! seq = Some ws.

(** A gateway with the secret "s3cret", and one without a secret. *)
Definition secret_config : Config :=
  {| onebot_access_token := Some (lit "s3cret") |}.
Definition open_config : Config := {| onebot_access_token := Some [] |}.

(** A connection that presents a wrong token, and one that presents the
    secret. *)
Definition intruder : WebSocket :=
  {| conn := 1;
     request := {| headers := {[ lit "Authorization" := lit "Bearer guess" ]} |} |}.
Definition member : WebSocket :=
  {| conn := 2;
     request := {| headers := {[ lit "Authorization" := lit "Bearer s3cret" ]} |} |}.

End Gateway.

(* ===================================================================== *)
(** * Notions used to state more about the dispatcher *)
(* ===================================================================== *)

Module ManagerProps.

Import Manager.

(** The capability raises nothing but exceptions of class [Exception]. *)
Definition raises_only_Exception (w : World) : Prop :=
  forall calls c e, respond w calls c = Raise e -> Py.is_Exception e = true.

(** The capability never raises [SystemExit]. *)
Definition never_exits (w : World) : Prop :=
  forall calls c code, respond w calls c <> Raise (SystemExit code).

(** A computation that comes to an end, only adds to the calls made on the
    capability, and raises nothing but exceptions of class [Exception]. *)
Definition tame {A} (m : M A) : Prop :=
  forall calls, exists o calls',
    m calls = Res o calls'
    /\ calls `prefix_of` calls'
    /\ (forall e, o = Raise e -> Py.is_Exception e = true).

(** The three calls of the scripts below. *)
Definition call0 (name : string) : com_call := {| method := name; args := [] |}.

(** The entry [get_group_member_list] builds for a member. *)
Definition member_view (user_id user_name : pyval) : pyval :=
  VDict [(lit "user_id", user_id); (lit "user_name", user_name);
         (lit "user_displayname", VStr [])].

(** A member as the capability lists it, with its entry. *)
Definition lists_member (member entry : pyval) : Prop :=
  exists d user_id user_name,
    member = VDict d
    /\ assoc (lit "wxid") d = Some user_id
    /\ assoc (lit "name") d = Some user_name
    /\ entry = member_view user_id user_name.

(** The response of [request] to an operation that raised. *)
Definition error_response : pyval :=
  ActionResponse [("status", VInt 500); ("msg", VStr msg_error);
                  ("data", VDict [])]%string.

(** Why calling an attribute with given keywords cannot reach a body: the
    attribute is no method, or a keyword is unexpected, or a parameter
    without default gets no value. *)
Definition unbindable (a : attribute) (kwargs : gmap Py.str pyval) : Prop :=
  match a with
  | Object => True
  | Method f =>
      (exists k v, kwargs !! k = Some v /\ known_keyword (params f) k = false)
      \/ (exists p, In (p, None) (params f) /\ kwargs !! p = None)
  end.

(** A capability that knows the bot under both spellings of the key. *)
Definition world_both : World := {|
  respond := fun _ c =>
    if String.eqb (method c) "get_self_info" then
      Return (VDict [(lit "wxId", VStr (lit "abc"));
                     (lit "WxId", VStr (lit "abc"));
                     (lit "Name", VStr (lit "Bot"))])
    else if String.eqb (method c) "get_group_members" then
      Return (VList [VDict [(lit "wxid", VStr (lit "wx_a"));
                            (lit "name", VStr (lit "Ann"))];
                     VDict [(lit "wxid", VStr (lit "wx_b"));
                            (lit "name", VStr (lit "Ben"))]])
    else Return (VBool true);
  absolute_child := fun v name =>
    match v with
    | VStr p => Return (p ++ lit "/" ++ name)
    | _ => Raise TypeError
    end;
|}.

End ManagerProps.

(* ===================================================================== *)
(** * [wechat/wechat.py]: forward connections *)
(* ===================================================================== *)

Module Forward.

Import Gateway.

(** ** [WeChatManager._forward_ws] *)

(** The headers [_forward_ws] sends: [Authorization: Bearer <token>] when a
    secret is configured, none otherwise. *)
Definition forward_headers (config : Config) : gmap Py.str Py.str :=
  match onebot_access_token config with
  | Some ((_ :: _) as token) => {[ lit "Authorization" := lit "Bearer " ++ token ]}
  | _ => ∅
  end.

(** [Request("GET", url, headers=headers, timeout=30.0)], with the field
    read by the check. *)
Definition forward_request (config : Config) : Request :=
  {| headers := forward_headers config |}.

(** What one turn of the outer loop meets: entering [self.websocket(req)]
    gives a connection or raises; the turns of the read loop, as for
    [_handle_ws]; and what [asyncio.sleep(RECONNECT_INTERVAL)] does.
    Leaving the connection's context is taken to succeed. *)
Record attempt : Type := {
  opening : outcome WebSocket;
  incoming : list (outcome unit);
  sleeping : outcome unit;
}.

(** How the task stands once the attempts at hand are used up: suspended
    in [receive] with the session registered under [seq], about to make
    its next attempt, or ended by an exception. *)
Inductive forward_progress : Type :=
| Receiving (seq : nat)
| Retrying
| Ended (e : exn).

Section WithDriver.

Variable Driver : Type.
Variable ws_connect : Driver -> WebSocket -> nat * Driver.
Variable ws_disconnect : Driver -> nat -> Driver.

(** [_forward_ws(url)] after its request is built: the [while True] loop,
    fed with [script].  The result also counts the sleeps that returned. *)
Fixpoint _forward_ws (script : list attempt) (d : Driver) (sleeps : nat)
  : forward_progress * Driver * nat :=
  match script with
  | [] => (Retrying, d, sleeps)
  | a :: script' =>
      match opening a with
      | Raise e =>
          if Py.is_Exception e then
            match sleeping a with
            | Return _ => _forward_ws script' d (S sleeps)
            | Raise e' => (Ended e', d, sleeps)
            end
          else (Ended e, d, sleeps)
      | Return ws =>
          let '(seq, d1) := ws_connect d ws in
          match read_loop (incoming a) with
          | None => (Receiving seq, d1, sleeps)
          | Some e =>
              (* finally: unregister *)
              let d2 := ws_disconnect d1 seq in
              if Py.is_Exception e then
                match sleeping a with
                | Return _ => _forward_ws script' d2 (S sleeps)
                | Raise e' => (Ended e', d2, sleeps)
                end
              else (Ended e, d2, sleeps)
          end
      end
  end.

End WithDriver.

Arguments _forward_ws {Driver} ws_connect ws_disconnect script d sleeps.

(** An attempt that fails with an exception of class [Exception], on
    opening or while reading, and whose sleep returns. *)
Definition fails_softly (a : attempt) : Prop :=
  sleeping a = Return tt
  /\ ((exists e, opening a = Raise e /\ Py.is_Exception e = true)
      \/ (exists ws e, opening a = Return ws
                       /\ read_loop (incoming a) = Some e
                       /\ Py.is_Exception e = true)).

(** Where an exception [e] that ended the task can come from: a sleep, or
    an opening or a read that raised outside the class [Exception]. *)
Definition may_end_with (e : exn) (a : attempt) : Prop :=
  sleeping a = Raise e
  \/ (Py.is_Exception e = false
      /\ (opening a = Raise e
          \/ exists ws, opening a = Return ws
                        /\ read_loop (incoming a) = Some e)).

(** ** [WeChatManager.__init__], [_start_forward], [_stop_forward] *)

(** The instance attributes the three methods touch: [config] (its list of
    urls), [task], and [tasks]; an attribute never assigned is [None].  A
    task stands for the url it was created for. *)
Record manager : Type := {
  onebot_ws_urls : list Py.str;
  task : option (list Py.str);
  tasks : option (list Py.str);
}.

(** [__init__] assigns [self.task = []]; it assigns nothing to [tasks],
    which the class only annotates. *)
Definition __init__ (urls : list Py.str) : manager :=
  {| onebot_ws_urls := urls; task := Some []; tasks := None |}.

Section WithURL.

(** [URL(url)] of the driver: the parsed url, or an exception. *)
Variable URL : Py.str -> outcome Py.str.

(** The loop of [_start_forward] over [urls].  [self.tasks] is read before
    the task is created, and [except Exception] takes what the turn
    raises. *)
Fixpoint start_loop (urls : list Py.str) (self : manager)
  : outcome unit * manager :=
  match urls with
  | [] => (Return tt, self)
  | url :: urls' =>
      match URL url with
      | Raise e =>
          if Py.is_Exception e then start_loop urls' self
          else (Raise e, self)
      | Return ws_url =>
          match tasks self with
          | None => (* AttributeError, taken by the handler *)
              start_loop urls' self
          | Some ts =>
              start_loop urls'
                {| onebot_ws_urls := onebot_ws_urls self;
                   task := task self;
                   tasks := Some (ts ++ [ws_url]) |}
          end
      end
  end.

Definition _start_forward (self : manager) : outcome unit * manager :=
  start_loop (onebot_ws_urls self) self.

End WithURL.

(** [_stop_forward]: the tasks it cancels (a task that is done is left
    alone; [done] tells which). *)
Definition _stop_forward (done : Py.str -> bool) (self : manager)
  : outcome (list Py.str) :=
  match tasks self with
  | None => Raise AttributeError
  | Some ts => Return (List.filter (fun t => negb (done t)) ts)
  end.

(** A script for the examples: the remote end is down twice. *)
Definition down_twice : list attempt :=
  [ {| opening := Raise RuntimeError; incoming := []; sleeping := Return tt |};
    {| opening := Return member;
       incoming := [Return tt; Raise WebSocketClosed];
       sleeping := Return tt |} ].

(** A script that is interrupted from the keyboard while opening. *)
Definition interrupted : list attempt :=
  [ {| opening := Raise KeyboardInterrupt; incoming := [];
       sleeping := Return tt |} ].

End Forward.

(* ===================================================================== *)
(** * [wechat/wechat.py]: from json to events *)
(* ===================================================================== *)

Module Events.

Section WithModels.

(** Decoded frames, event models and events come from outside the file
    ([json], [pydantic], [.utils], the event modules), and so do
    [isinstance(_, dict)], [flattened_to_nested], the [get] of a frame
    formatted into the key, [parse_obj] of a model and of [Event]. *)
Variables json model event : Type.
Variable is_dict : json -> bool.
Variable flattened_to_nested : json -> outcome json.
Variable key_of : json -> outcome Py.str.
Variable parse_obj : model -> json -> outcome event.
Variable Event_parse_obj : json -> outcome event.

(** What a generator gives when run to its end: the items yielded, and the
    exception that ended it if one did. *)
Definition stream : Type := list model * option exn.

(** The class attribute [event_models]: [None] while it is only annotated,
    else the [get_model] of the tree found under a key. *)
Variable event_models : option (Py.str -> option (json -> stream)).

(** What [get_event_model] can be handed: the class, or a frame. *)
Inductive arg : Type :=
| AClass
| AData (j : json).

(** [yield from a] and then [yield from b ()], where [b] is not looked at
    when [a] ended by an exception. *)
Definition then_ (a : stream) (b : unit -> stream) : stream :=
  match a with
  | (ms, Some e) => (ms, Some e)
  | (ms, None) => let '(ms', e') := b tt in (ms ++ ms', e')
  end.

(** [def get_event_model(cls, data)]: a plain function of the class with
    two parameters, whose body is a generator. *)
Definition get_event_model_params : list string := ["cls"; "data"]%string.

Definition get_event_model_body (cls data : arg) : stream :=
  match data with
  | AClass => ([], Some AttributeError)
  | AData j =>
      match key_of j with
      | Raise e => ([], Some e)
      | Return key =>
          match cls, event_models with
          | AClass, Some models =>
              then_
                (match models key with
                 | Some get_model => get_model j
                 | None => ([], None)
                 end)
                (fun _ =>
                   match models [] with
                   | Some get_model => get_model j
                   | None => ([], Some KeyError)
                   end)
          | _, _ => ([], Some AttributeError)
          end
      end
  end.

(** Calling the function on positional arguments: the arguments are bound
    at the call, the body runs when the generator is iterated. *)
Definition get_event_model (args : list arg) : outcome stream :=
  match args with
  | [cls; data] => Return (get_event_model_body cls data)
  | _ => Raise TypeError
  end.

(** The [for ... else] of [json_to_event] over what the generator gives:
    the first model that parses gives the event; an exception of class
    [Exception] of a model is logged; when the models are used up the
    fallback [Event] parses the frame. *)
Fixpoint first_parse (models : list model) (tail : option exn) (json_data : json)
  : outcome event :=
  match models with
  | [] =>
      match tail with
      | Some e => Raise e
      | None => Event_parse_obj json_data
      end
  | model_ :: models' =>
      match parse_obj model_ json_data with
      | Return event_ => Return event_
      | Raise e =>
          if Py.is_Exception e then first_parse models' tail json_data
          else Raise e
      end
  end.

(** [json_to_event(cls, json_data)], a class method: it calls
    [cls.get_event_model(json_data)], the plain function with one
    argument. *)
Definition json_to_event (json_data : json) : outcome (option event) :=
  if negb (is_dict json_data) then Return None
  else
    let! json_data := flattened_to_nested json_data in
    let attempt :=
      let! (models, tail) := get_event_model [AData json_data] in
      first_parse models tail json_data in
    match attempt with
    | Return event_ => Return (Some event_)
    | Raise e => if Py.is_Exception e then Return None else Raise e
    end.

End WithModels.

Arguments AClass {json}.
Arguments AData {json} j.
Arguments get_event_model_body {json model} key_of event_models cls data.
Arguments get_event_model {json model} key_of event_models args.
Arguments first_parse {json model event} parse_obj Event_parse_obj
  models tail json_data.
Arguments json_to_event {json model event} is_dict flattened_to_nested key_of
  parse_obj Event_parse_obj event_models json_data.

End Events.

(* ===================================================================== *)
(** * Notions used to state more about the normaliser *)
(* ===================================================================== *)

Module MessageProps.

Import Message.

(** What a segment mentions: an identifier of the attachment, "notify@all"
    for a mention of everybody, nothing for text. *)
Definition segment_target (s : MessageSegment) : option Py.str :=
  match s with
  | mention user_id => Some user_id
  | mention_all => Some (lit "notify@all")
  | text _ => None
  end.

(** The text of a text segment. *)
Definition segment_text (s : MessageSegment) : option Py.str :=
  match s with
  | text t => Some t
  | _ => None
  end.

(** The group of a group message event, [None] for the other events. *)
Definition event_group (e : Event) : option Py.str :=
  match e with
  | GroupMessageEvent _ _ _ _ _ _ _ group_id => Some group_id
  | _ => None
  end.

(** The user of a message event. *)
Definition event_user (e : Event) : option Py.str :=
  match e with
  | GroupMessageEvent _ _ _ _ _ _ user_id _ => Some user_id
  | PrivateMessageEvent _ _ _ _ _ _ user_id => Some user_id
  | _ => None
  end.

(** [t0; m0; t1; m1; ...; tn]: texts and markers in turn. *)
Fixpoint interleave (texts marks : list Py.str) : list Py.str :=
  match texts, marks with
  | t :: texts', m :: marks' => t :: m :: interleave texts' marks'
  | _, _ => texts
  end.

(** A piece that is one whole match of the mention pattern. *)
Definition whole_match (m : Py.str) : Prop := Re.match_at m = Some (m, []).

(** Every function of a registry takes the two parameters [self], [msg]. *)
Definition two_parameters (D : gmap Z pyfunc) : Prop :=
  forall t h, D !! t = Some h -> length (params h) = 2%nat.

(** A private text message. *)
Definition private_hello : WechatMessage :=
  raw 1 "wx_carol" "hello there" "<msgsource><signature>v1</signature></msgsource>".

End MessageProps.

(* ===================================================================== *)
(** * [com_wechat/message.py]: the other handlers *)
(* ===================================================================== *)

Module Handlers.

(** ** Results

    [int()] brings in [ValueError], which the handlers above never meet. *)
Inductive error : Type :=
| Builtin (e : Py.exn)
| ValueError.

Inductive result (A : Type) : Type :=
| Ok (a : A)
| Fail (e : error).
Arguments Ok {A} a.
Arguments Fail {A} e.

Definition rbind {A B} (r : result A) (k : A -> result B) : result B :=
  match r with
  | Ok a => k a
  | Fail e => Fail e
  end.

Notation "'try!' x := r 'in' k" := (rbind r (fun x => k))
  (at level 10, x pattern, k at level 200).

Definition of_outcome {A} (o : outcome A) : result A :=
  match o with
  | Return a => Ok a
  | Raise e => Fail (Builtin e)
  end.

Definition attribute_error {A} : result A := Fail (Builtin AttributeError).
Definition type_error {A} : result A := Fail (Builtin TypeError).
Definition key_error {A} : result A := Fail (Builtin KeyError).

(** ** Segments and events *)

(** The segments these handlers build.  What is read off the [text] of an
    element may be [None]. *)
Inductive Segment : Type :=
| Text (text : option Py.str)
| Reply (message_id user_id : option Py.str)
| Link (tittle des : option Py.str) (url image : Py.str)
| App (app_id title url : option Py.str)
| File (file_id : Py.str)
| Image (file_id : Py.str)
| Video (file_id : Py.str)
| Card (v3 v4 head_url province city sex : Py.str)
| Location (latitude longitude title content : Py.str).

(** [id], [time] and [self=BotSelf(user_id=...)], common to all events. *)
Record Head : Type := { id : Py.str; time : Z; self_id : Py.str }.

(** The events, with the keyword arguments of their constructors;
    [alt_message] is [str(message)] of the same message and is left out. *)
Inductive Event : Type :=
| GroupMessageEvent (head : Head) (message_id : Py.str)
    (message : list Segment) (user_id group_id : Py.str)
| PrivateMessageEvent (head : Head) (message_id : Py.str)
    (message : list Segment) (user_id : Py.str)
| FriendRequestEvent (head : Head)
    (user_id v3 v4 nickname content country province city : Py.str)
| GetGroupFileNotice (head : Head) (message_id : Z) (user_id group_id : Py.str)
    (file_name : option Py.str) (file_length : Z) (md5 : option Py.str)
| GetPrivateFileNotice (head : Head) (message_id : Z) (user_id : Py.str)
    (file_name : option Py.str) (file_length : Z) (md5 : option Py.str)
| GetGroupAnnouncementNotice (head : Head) (group_id user_id : Py.str)
    (text : option Py.str)
| GetGroupRedBagNotice (head : Head) (user_id group_id : Py.str)
| GetPrivateRedBagNotice (head : Head) (user_id : Py.str)
| GetGroupPokeNotice (head : Head) (user_id group_id : Py.str)
| GetPrivatePokeNotice (head : Head) (user_id : Py.str).

(** The group an event belongs to, [None] for a private one. *)
Definition group_of (e : Event) : option Py.str :=
  match e with
  | GroupMessageEvent _ _ _ _ g => Some g
  | GetGroupFileNotice _ _ _ g _ _ _ => Some g
  | GetGroupAnnouncementNotice _ g _ _ => Some g
  | GetGroupRedBagNotice _ _ g => Some g
  | GetGroupPokeNotice _ _ g => Some g
  | _ => None
  end.

(** The user an event is about. *)
Definition user_of (e : Event) : Py.str :=
  match e with
  | GroupMessageEvent _ _ _ u _ => u
  | PrivateMessageEvent _ _ _ u => u
  | FriendRequestEvent _ u _ _ _ _ _ _ _ => u
  | GetGroupFileNotice _ _ u _ _ _ _ => u
  | GetPrivateFileNotice _ _ u _ _ _ => u
  | GetGroupAnnouncementNotice _ _ u _ => u
  | GetGroupRedBagNotice _ u _ => u
  | GetPrivateRedBagNotice _ u => u
  | GetGroupPokeNotice _ u _ => u
  | GetPrivatePokeNotice _ u => u
  end.

(** ** Functions and their arguments *)

Record pyfunc : Type := {
  params : list string;
  is_coroutine : bool;
  body : list Message.pyobj -> result (option Event);
}.

(** Calling [f] on positional arguments. *)
Definition call (f : pyfunc) (args : list Message.pyobj) : result (option Event) :=
  if Nat.eqb (length args) (length (params f)) then body f args
  else type_error.

(** Reading a field of a raw message, a path of a handler, or calling
    [find] on an element, off an argument. *)
Definition as_message (o : Message.pyobj) : result Message.WechatMessage :=
  match o with
  | Message.OMsg m => Ok m
  | _ => attribute_error
  end.

Definition as_handler (o : Message.pyobj) : result Message.MessageHandler :=
  match o with
  | Message.OHandler h => Ok h
  | _ => attribute_error
  end.

Definition as_element (o : Message.pyobj) : result ET.Element :=
  match o with
  | Message.OElem e => Ok e
  | _ => attribute_error
  end.

(** [e.find(path).text]: [None] has no [text]. *)
Definition find_text (path : list Py.str) (e : ET.Element)
  : result (option Py.str) :=
  match ET.find path e with
  | Some x => Ok (ET.text x)
  | None => attribute_error
  end.

(** [attrib[key]] *)
Fixpoint lookup (key : Py.str) (attrib : list (Py.str * Py.str))
  : option Py.str :=
  match attrib with
  | [] => None
  | (k, v) :: attrib' => if Py.str_eqb k key then Some v else lookup key attrib'
  end.

Definition item (attrib : list (Py.str * Py.str)) (key : string) : result Py.str :=
  match lookup (lit key) attrib with
  | Some v => Ok v
  | None => key_error
  end.

(** What these handlers take from outside the file, beside the parser and
    the uuid: [int] on a string, the tags of [AppType] ([.type]), the file
    cache, and the join of two paths. *)
Record Env : Type := {
  base : Message.Env;
  int_of_str : Py.str -> result Z;
  LINK_MSG : Z;
  FILE_NOTICE : Z;
  QUOTE : Z;
  APP : Z;
  GROUP_ANNOUNCEMENT : Z;
  TRANSFER : Z;
  cache_file_id_from_path : Py.str -> option Py.str -> result Py.str;
  path_join : Py.str -> Py.str -> Py.str;
}.

(** What the handlers of images, voices, videos and emojis take from
    [pathlib], [urllib] and the file cache.  A path is the string it was
    built from; [format_obj] is [str] on an argument. *)
Record Files : Type := {
  exists_ : Py.str -> bool;
  absolute : Py.str -> Py.str;
  stem : Py.str -> Py.str;
  name : Py.str -> Py.str;
  parent : Py.str -> Py.str;
  unquote : Py.str -> Py.str;
  format_obj : Message.pyobj -> Py.str;
  cache_file_id_from_url : Py.str -> Py.str -> result Py.str;
}.

(** [int(x)] for the [text] of an element. *)
Definition int_ (env : Env) (x : option Py.str) : result Z :=
  match x with
  | None => type_error
  | Some t => int_of_str env t
  end.

Definition fromstring (env : Env) (s : Py.str) : result ET.Element :=
  of_outcome (Message.ET_fromstring (base env) s).

Definition head_of (env : Env) (m : Message.WechatMessage) : Head :=
  {| id := Message.uuid4 (base env);
     time := Message.timestamp m;
     self_id := Message.self m |}.

(** The end shared by the message handlers: a group message when the
    sender contains "@chatroom", a private message otherwise. *)
Definition message_event (env : Env) (m : Message.WechatMessage)
  (message : list Segment) : Event :=
  if Py.contains (lit "@chatroom") (Message.sender m) then
    GroupMessageEvent (head_of env m) (Py.str_of_int (Message.msgid m))
      message (Message.wxid m) (Message.sender m)
  else
    PrivateMessageEvent (head_of env m) (Py.str_of_int (Message.msgid m))
      message (Message.wxid m).

(** ** [MessageHandler._find_file] *)

(** [_find_file(file_path)]: [exists_] is [Path.exists] on the path given
    as a string. *)
Definition _find_file (exists_ : Py.str -> bool) (file_path : Py.str)
  : option Py.str :=
  let jpg := file_path ++ lit ".jpg" in
  if exists_ jpg then Some jpg else
  let png := file_path ++ lit ".png" in
  if exists_ png then Some png else
  let gif := file_path ++ lit ".gif" in
  if exists_ gif then Some gif else
  None.

(** [_find_file] is written in the class without [self]: it takes one
    parameter. *)
Definition _find_file_params : list string := ["file_path"]%string.

(** [self._find_file(...)]: the instance comes first among the positional
    arguments.  With no further argument the instance itself is formatted
    into the three names. *)
Definition call_find_file (fs : Files) (self_ : Message.pyobj)
  (args : list Py.str) : result (option Py.str) :=
  if Nat.eqb (S (length args)) (length _find_file_params) then
    Ok (_find_file (exists_ fs) (format_obj fs self_))
  else type_error.

(** ** [SysMessageHandler] *)

Module SysMessageHandler.

(** The literal of [poke]: a space, then "patted me". *)
Definition poke_text : Py.str := [32; 25293; 20102; 25293; 25105]%N.

(** [def read_bag(cls, msg)] *)
Definition read_bag (env : Env) : pyfunc := {|
  params := ["cls"; "msg"]%string;
  is_coroutine := false;
  body := fun args =>
    match args with
    | [cls; msg] =>
        try! m := as_message msg in
        if negb (Py.str_eqb (Message.message m) Message.red_bag_text) then Ok None
        else if Py.contains (lit "@chatroom") (Message.sender m) then
          Ok (Some (GetGroupRedBagNotice (head_of env m) (Message.wxid m)
                      (Message.sender m)))
        else Ok (Some (GetPrivateRedBagNotice (head_of env m) (Message.wxid m)))
    | _ => type_error
    end;
|}.

(** [def poke(cls, msg)] *)
Definition poke (env : Env) : pyfunc := {|
  params := ["cls"; "msg"]%string;
  is_coroutine := false;
  body := fun args =>
    match args with
    | [cls; msg] =>
        try! m := as_message msg in
        if negb (Py.contains poke_text (Message.message m)) then Ok None
        else if Py.contains (lit "@chatroom") (Message.sender m) then
          Ok (Some (GetGroupPokeNotice (head_of env m) (Message.wxid m)
                      (Message.sender m)))
        else Ok (Some (GetPrivatePokeNotice (head_of env m) (Message.wxid m)))
    | _ => type_error
    end;
|}.

End SysMessageHandler.

(** ** [AppMessageHandler] *)

Module AppMessageHandler.

(** [s.replace(" ", "")] *)
Definition without_spaces (s : Py.str) : Py.str :=
  List.filter (fun c => negb (N.eqb c 32)) s.

(** [def handle_link(cls, msg_handler, msg, app)] *)
Definition handle_link (env : Env) : pyfunc := {|
  params := ["cls"; "msg_handler"; "msg"; "app"]%string;
  is_coroutine := false;
  body := fun args =>
    match args with
    | [cls; msg_handler; msg; app] =>
        try! app_ := as_element app in
        try! title := find_text [lit "title"] app_ in
        try! des := find_text [lit "des"] app_ in
        try! url_text := find_text [lit "url"] app_ in
        try! url := match url_text with
                    | Some u => Ok (without_spaces u)
                    | None => attribute_error
                    end in
        try! m := as_message msg in
        try! image_path :=
          match Message.filepath m with
          | [] => Ok []
          | p =>
              try! h := as_handler msg_handler in
              Ok (Message.wechat_path h ++ lit "/" ++ p)
          end in
        Ok (Some (message_event env m [Link title des url image_path]))
    | _ => type_error
    end;
|}.

(** [async def handle_file(cls, msg_handler, msg, app)] *)
Definition handle_file (env : Env) : pyfunc := {|
  params := ["cls"; "msg_handler"; "msg"; "app"]%string;
  is_coroutine := true;
  body := fun args =>
    match args with
    | [cls; msg_handler; msg; app] =>
        try! app_ := as_element app in
        try! file_name := find_text [lit "title"] app_ in
        try! md5 := find_text [lit "md5"] app_ in
        try! appattach := match ET.find [lit "appattach"] app_ with
                          | Some x => Ok x
                          | None => attribute_error
                          end in
        try! totalen := find_text [lit "totalen"] appattach in
        try! file_length := int_ env totalen in
        match ET.find [lit "overwrite_newmsgid"] appattach with
        | None =>
            try! m := as_message msg in
            if Py.contains (lit "@chatroom") (Message.sender m) then
              Ok (Some (GetGroupFileNotice (head_of env m) (Message.msgid m)
                          (Message.wxid m) (Message.sender m)
                          file_name file_length md5))
            else
              Ok (Some (GetPrivateFileNotice (head_of env m) (Message.msgid m)
                          (Message.wxid m) file_name file_length md5))
        | Some _ =>
            try! h := as_handler msg_handler in
            try! m := as_message msg in
            let file_path := path_join env (Message.wechat_path h) (Message.filepath m) in
            try! file_id := cache_file_id_from_path env file_path file_name in
            Ok (Some (message_event env m [File file_id]))
        end
    | _ => type_error
    end;
|}.

(** [def handle_quote(cls, msg_handler, msg, app)] *)
Definition handle_quote (env : Env) : pyfunc := {|
  params := ["cls"; "msg_handler"; "msg"; "app"]%string;
  is_coroutine := false;
  body := fun args =>
    match args with
    | [cls; msg_handler; msg; app] =>
        try! app_ := as_element app in
        try! text := find_text [lit "title"] app_ in
        try! from_msgid := find_text [lit "refermsg"; lit "svrid"] app_ in
        try! from_user := find_text [lit "refermsg"; lit "fromusr"] app_ in
        try! m := as_message msg in
        Ok (Some (message_event env m [Reply from_msgid from_user; Text text]))
    | _ => type_error
    end;
|}.

(** [def handle_app(cls, msg_handler, msg, app)] *)
Definition handle_app (env : Env) : pyfunc := {|
  params := ["cls"; "msg_handler"; "msg"; "app"]%string;
  is_coroutine := false;
  body := fun args =>
    match args with
    | [cls; msg_handler; msg; app] =>
        try! app_ := as_element app in
        try! title := find_text [lit "title"] app_ in
        try! url := find_text [lit "url"] app_ in
        try! app_id := find_text [lit "weappinfo"; lit "username"] app_ in
        try! m := as_message msg in
        Ok (Some (message_event env m [App app_id title url]))
    | _ => type_error
    end;
|}.

(** [def handle_announcement(cls, msg_handler, msg, app)] *)
Definition handle_announcement (env : Env) : pyfunc := {|
  params := ["cls"; "msg_handler"; "msg"; "app"]%string;
  is_coroutine := false;
  body := fun args =>
    match args with
    | [cls; msg_handler; msg; app] =>
        try! app_ := as_element app in
        try! text := find_text [lit "textannouncement"] app_ in
        try! m := as_message msg in
        Ok (Some (GetGroupAnnouncementNotice (head_of env m) (Message.sender m)
                    (Message.wxid m) text))
    | _ => type_error
    end;
|}.

(** [def handle_transfer(cls, msg_handler, msg, app)] *)
Definition handle_transfer : pyfunc := {|
  params := ["cls"; "msg_handler"; "msg"; "app"]%string;
  is_coroutine := false;
  body := fun args =>
    match args with
    | [cls; msg_handler; msg; app] => Ok None
    | _ => type_error
    end;
|}.

End AppMessageHandler.

(** ** The registries *)

(** [add_app_handler(_tpye)(func)]: [APP_HANDLERS[_tpye] = func] *)
Definition add_app_handler (_tpye : Z) (func : pyfunc)
  (APP_HANDLERS : gmap Z pyfunc) : gmap Z pyfunc :=
  <[_tpye := func]> APP_HANDLERS.

(** [add_sys_handler(func)]: [SYS_HANDLERS.append(func)] *)
Definition add_sys_handler (func : pyfunc) (SYS_HANDLERS : list pyfunc)
  : list pyfunc :=
  SYS_HANDLERS ++ [func].

(** [APP_HANDLERS] and [SYS_HANDLERS] once the file is loaded: the
    decorators run in the order of the file, each below [classmethod], so
    that the functions registered are the plain ones. *)
Definition APP_HANDLERS (env : Env) : gmap Z pyfunc :=
  add_app_handler (TRANSFER env) AppMessageHandler.handle_transfer
    (add_app_handler (GROUP_ANNOUNCEMENT env) (AppMessageHandler.handle_announcement env)
       (add_app_handler (APP env) (AppMessageHandler.handle_app env)
          (add_app_handler (QUOTE env) (AppMessageHandler.handle_quote env)
             (add_app_handler (FILE_NOTICE env) (AppMessageHandler.handle_file env)
                (add_app_handler (LINK_MSG env) (AppMessageHandler.handle_link env)
                   ∅))))).

Definition SYS_HANDLERS (env : Env) : list pyfunc :=
  add_sys_handler (SysMessageHandler.poke env)
    (add_sys_handler (SysMessageHandler.read_bag env) []).

(** ** [MessageHandler] *)

Module MessageHandler.

(** [async def handle_image(self, msg)] *)
Definition handle_image (env : Env) (fs : Files) : pyfunc := {|
  params := ["self"; "msg"]%string;
  is_coroutine := true;
  body := fun args =>
    match args with
    | [self_; msg] =>
        try! m := as_message msg in
        let file_name := stem fs (Message.filepath m) in
        try! h := as_handler self_ in
        let file_path := absolute fs (Message.image_path h) ++ lit "/" ++ file_name in
        try! file := call_find_file fs self_ [file_path] in
        match file with
        | None => Ok None
        | Some f =>
            try! file_id := cache_file_id_from_path env f (Some (name fs f)) in
            Ok (Some (message_event env m [Image file_id]))
        end
    | _ => type_error
    end;
|}.

(** [async def handle_voice(self, msg)]; the segment built is an image
    segment. *)
Definition handle_voice (env : Env) (fs : Files) : pyfunc := {|
  params := ["self"; "msg"]%string;
  is_coroutine := true;
  body := fun args =>
    match args with
    | [self_; msg] =>
        try! m := as_message msg in
        let file_name := Message.sign m in
        try! h := as_handler self_ in
        let file := path_join env (Message.voice_path h) (file_name ++ lit ".amr") in
        try! file_id := cache_file_id_from_path env file (Some (name fs file)) in
        Ok (Some (message_event env m [Image file_id]))
    | _ => type_error
    end;
|}.

(** [async def handle_video(self, msg)] *)
Definition handle_video (env : Env) (fs : Files) : pyfunc := {|
  params := ["self"; "msg"]%string;
  is_coroutine := true;
  body := fun args =>
    match args with
    | [self_; msg] =>
        try! h := as_handler self_ in
        try! m := as_message msg in
        let video_img := path_join env (Message.wechat_path h) (Message.thumb_path m) in
        let video_path := parent fs video_img in
        let video_name := stem fs video_img ++ lit ".mp4" in
        let video := path_join env video_path video_name in
        try! file_id := cache_file_id_from_path env video (Some video_name) in
        Ok (Some (message_event env m [Video file_id]))
    | _ => type_error
    end;
|}.

(** [async def handle_emoji(self, msg)]: [attrib.get] gives [None] for a
    missing address, which [unquote] refuses. *)
Definition handle_emoji (env : Env) (fs : Files) : pyfunc := {|
  params := ["self"; "msg"]%string;
  is_coroutine := true;
  body := fun args =>
    match args with
    | [self_; msg] =>
        try! m := as_message msg in
        try! xml_obj := fromstring env (Message.message m) in
        try! emoji_ := match ET.find [lit "emoji"] xml_obj with
                       | Some x => Ok x
                       | None => attribute_error
                       end in
        let emoji_url := lookup (lit "cdnurl") (ET.attrib emoji_) in
        try! emoji := match emoji_url with
                      | Some u => Ok (unquote fs u)
                      | None => type_error
                      end in
        try! file_id := cache_file_id_from_url fs emoji
                          (Py.str_of_int (Message.msgid m) ++ lit ".gif") in
        Ok (Some (message_event env m [Image file_id]))
    | _ => type_error
    end;
|}.

(** [def handle_friend_request(self, msg)] *)
Definition handle_friend_request (env : Env) : pyfunc := {|
  params := ["self"; "msg"]%string;
  is_coroutine := false;
  body := fun args =>
    match args with
    | [self_; msg] =>
        try! m := as_message msg in
        try! xml_obj := fromstring env (Message.message m) in
        let attrib := ET.attrib xml_obj in
        try! user_id := item attrib "fromusername" in
        try! v3 := item attrib "encryptusername" in
        try! v4 := item attrib "ticket" in
        try! nickname := item attrib "fromnickname" in
        try! content := item attrib "content" in
        try! country := item attrib "country" in
        try! province := item attrib "province" in
        try! city := item attrib "city" in
        Ok (Some (FriendRequestEvent (head_of env m) user_id v3 v4 nickname
                    content country province city))
    | _ => type_error
    end;
|}.

(** [def handle_card(self, msg)] *)
Definition handle_card (env : Env) : pyfunc := {|
  params := ["self"; "msg"]%string;
  is_coroutine := false;
  body := fun args =>
    match args with
    | [self_; msg] =>
        try! m := as_message msg in
        try! xml_obj := fromstring env (Message.message m) in
        let attrib := ET.attrib xml_obj in
        try! v3 := item attrib "username" in
        try! v4 := item attrib "antispamticket" in
        try! head_url := item attrib "bigheadimgurl" in
        try! province := item attrib "province" in
        try! city := item attrib "city" in
        try! sex := item attrib "sex" in
        Ok (Some (message_event env m [Card v3 v4 head_url province city sex]))
    | _ => type_error
    end;
|}.

(** [def handle_location(self, msg)] *)
Definition handle_location (env : Env) : pyfunc := {|
  params := ["self"; "msg"]%string;
  is_coroutine := false;
  body := fun args =>
    match args with
    | [self_; msg] =>
        try! m := as_message msg in
        try! xml_obj := fromstring env (Message.message m) in
        let attrib := ET.attrib xml_obj in
        try! latitude := item attrib "x" in
        try! longitude := item attrib "y" in
        try! title := item attrib "label" in
        try! content := item attrib "poiname" in
        Ok (Some (message_event env m [Location latitude longitude title content]))
    | _ => type_error
    end;
|}.

(** [async def handle_app(self, msg)]: the second dispatch, over
    [handlers]. *)
Definition handle_app (env : Env) (handlers : gmap Z pyfunc) : pyfunc := {|
  params := ["self"; "msg"]%string;
  is_coroutine := true;
  body := fun args =>
    match args with
    | [self_; msg] =>
        try! m := as_message msg in
        try! xml_obj := fromstring env (Message.message m) in
        let app := ET.find [lit "appmsg"] xml_obj in
        try! app_ := match app with
                     | Some x => Ok x
                     | None => attribute_error
                     end in
        try! type_text := find_text [lit "type"] app_ in
        try! _type := int_ env type_text in
        match handlers !! _type with
        | None => Ok None
        | Some handler => call handler [self_; msg; Message.OElem app_]
        end
    | _ => type_error
    end;
|}.

(** [def handle_sys(self, msg)]: the loop over [handlers]. *)
Fixpoint first_result (handlers : list pyfunc) (args : list Message.pyobj)
  (result_ : option Event) : result (option Event) :=
  match handlers with
  | [] => Ok result_
  | handler :: handlers' =>
      try! r := call handler args in
      match r with
      | Some _ => Ok r
      | None => first_result handlers' args r
      end
  end.

Definition handle_sys (handlers : list pyfunc) : pyfunc := {|
  params := ["self"; "msg"]%string;
  is_coroutine := false;
  body := fun args =>
    match args with
    | [self_; msg] => first_result handlers [msg] None
    | _ => type_error
    end;
|}.

End MessageHandler.

(** The attributes [handle_friend_request] reads, in the order read. *)
Definition friend_request_keys : list string :=
  ["fromusername"; "encryptusername"; "ticket"; "fromnickname"; "content";
   "country"; "province"; "city"]%string.

(** ** Concrete instances for the examples *)

(** [int] on the strings of decimal digits; the instance refuses the other
    strings [int] accepts (signs, blanks, underscores, other digits). *)
Fixpoint digits (acc : Z) (s : Py.str) : option Z :=
  match s with
  | [] => Some acc
  | c :: s' =>
      if (N.leb 48 c && N.leb c 57)%bool
      then digits (10 * acc + Z.of_N (c - 48)) s'
      else None
  end.

Definition int_decimal (s : Py.str) : result Z :=
  match s with
  | [] => Fail ValueError
  | _ => match digits 0 s with
         | Some n => Ok n
         | None => Fail ValueError
         end
  end.

Definition env0 : Env := {|
  base := Message.env0;
  int_of_str := int_decimal;
  LINK_MSG := 5;
  FILE_NOTICE := 6;
  QUOTE := 57;
  APP := 33;
  GROUP_ANNOUNCEMENT := 87;
  TRANSFER := 2000;
  cache_file_id_from_path := fun path name => Ok (lit "file-" ++ path);
  path_join := fun a b => a ++ lit "/" ++ b;
|}.

(** File operations for the examples: nothing exists, and names are
    left as they are. *)
Definition files0 : Files := {|
  exists_ := fun _ => false;
  absolute := fun p => lit "/srv/" ++ p;
  stem := fun p => p;
  name := fun p => p;
  parent := fun p => p;
  unquote := fun u => u;
  format_obj := fun _ => lit "<object>";
  cache_file_id_from_url := fun url name_ => Ok (lit "url-" ++ name_);
|}.

(** An app message of a subtype nobody registered, a quote, and a friend
    request without ticket. *)
Definition app_unknown : Message.WechatMessage :=
  Message.raw 49 "wx_carol" "<msg><appmsg><type>4</type></appmsg></msg>" "".

Definition app_quote : Message.WechatMessage :=
  Message.raw 49 "123@chatroom"
    "<msg><appmsg><title>ok</title><type>57</type><refermsg><svrid>9</svrid><fromusr>wx_a</fromusr></refermsg></appmsg></msg>" "".

Definition friend_no_ticket : Message.WechatMessage :=
  Message.raw 37 "fmessage"
    "<msg fromusername='wx_new' encryptusername='v3_x' fromnickname='New' content='hi' country='CN' province='GD' city='SZ'/>" "".

Definition location_pin : Message.WechatMessage :=
  Message.raw 48 "wx_carol" "<msg x='1.5' y='2.5' label='Home' poiname='Here'/>" "".

Definition red_bag : Message.WechatMessage := {|
  Message.type := 10000;
  Message.sender := lit "123@chatroom";
  Message.wxid := lit "wx_bob";
  Message.self := lit "wx_bot";
  Message.message := Message.red_bag_text;
  Message.extrainfo := [];
  Message.timestamp := 1700000000;
  Message.msgid := 43;
  Message.filepath := [];
  Message.sign := [];
  Message.thumb_path := [];
|}.

End Handlers.

(* ===================================================================== *)
(** * Properties of the event normaliser *)
(* ===================================================================== *)

Module MessageFacts.

Import Message.

(** ** The registry *)

Lemma call_handle_text (env : Env) (self_ msg : pyobj) :
  call (handle_text env) [self_; msg] = handle_text_body env self_ msg.
Proof. reflexivity. Qed.

Lemma call_handle_group_sys (env : Env) (hs : list pyfunc) (self_ msg : pyobj) :
  call (handle_group_sys env hs) [self_; msg]
  = handle_group_sys_body env hs self_ msg.
Proof. reflexivity. Qed.

Lemma handle_message_calls_handler
  (HANDLE_DICT : gmap Z pyfunc) (msg : WechatMessage) (handler : pyfunc) :
  HANDLE_DICT !! type msg = Some handler ->
  handle_message HANDLE_DICT msg = call handler [OMsg msg].
Proof.
  intros Hsome. unfold handle_message, await. rewrite Hsome.
  destruct (is_coroutine handler); reflexivity.
Qed.

(** Every function in the registry of the file takes [self] and [msg],
    and [handle_message] passes it the message alone: for a registered type
    the call stops on the [TypeError] of the missing argument. *)
Lemma handle_message_registry_arity
  (env : Env) (msg : WechatMessage) (handler : pyfunc) :
  HANDLE_DICT env !! type msg = Some handler ->
  handle_message (HANDLE_DICT env) msg = Raise TypeError.
Proof.
  intros Hsome. rewrite (handle_message_calls_handler _ _ _ Hsome).
  unfold HANDLE_DICT, add_handler in Hsome.
  destruct (decide (GROUP_SYS_MSG env = type msg)) as [Heq|Hne].
  - rewrite Heq, lookup_insert_eq in Hsome. injection Hsome as <-. reflexivity.
  - rewrite lookup_insert_ne in Hsome by exact Hne.
    destruct (decide (TEXT_MSG env = type msg)) as [Heq|Hne'].
    + rewrite Heq, lookup_insert_eq in Hsome. injection Hsome as <-. reflexivity.
    + rewrite lookup_insert_ne in Hsome by exact Hne'.
      rewrite lookup_empty in Hsome. discriminate.
Qed.

(** C7.  A raw message whose type tag has no entry in the handler registry
    is normalised to no event: [handle_message] returns [None], and so
    does not raise. *)
Theorem handle_message_unregistered
  (HANDLE_DICT : gmap Z pyfunc) (msg : WechatMessage) :
  HANDLE_DICT !! type msg = None ->
  handle_message HANDLE_DICT msg = Return None.
Proof.
  intros Hnone. unfold handle_message. rewrite Hnone. reflexivity.
Qed.

Lemma handle_message_unregistered_witness :
  HANDLE_DICT env0 !! type unknown_type = None
  /\ handle_message (HANDLE_DICT env0) unknown_type = Return None.
Proof.
  assert (H : HANDLE_DICT env0 !! type unknown_type = None)
    by reflexivity.
  split; [exact H | exact (handle_message_unregistered _ _ H)].
Defined.

(** C4 (as amended).  For a raw message whose type is registered,
    [handle_message] gives exactly the outcome of calling the registered
    handler on the message: its event or [None] when the call returns, its
    exception when the call raises.  Nothing in [handle_message] catches
    an exception of the handler. *)
Theorem handle_message_registered
  (HANDLE_DICT : gmap Z pyfunc) (msg : WechatMessage) (handler : pyfunc) :
  HANDLE_DICT !! type msg = Some handler ->
  handle_message HANDLE_DICT msg = call handler [OMsg msg]
  /\ (forall e, call handler [OMsg msg] = Raise e ->
                handle_message HANDLE_DICT msg = Raise e).
Proof.
  intros Hsome.
  pose proof (handle_message_calls_handler _ _ _ Hsome) as Heq.
  split; [exact Heq | intros e He; rewrite Heq; exact He].
Qed.

Lemma handle_message_registered_witness :
  HANDLE_DICT env0 !! type truncated_xml = Some (handle_text env0)
  /\ handle_message (HANDLE_DICT env0) truncated_xml
     = call (handle_text env0) [OMsg truncated_xml].
Proof.
  assert (H : HANDLE_DICT env0 !! type truncated_xml = Some (handle_text env0))
    by reflexivity.
  split; [exact H | exact (proj1 (handle_message_registered _ _ _ H))].
Defined.

(** C4, the claim as written fails: the text type is registered, the
    attachment of the message is malformed, and [handle_message] raises.
    The handler itself, called as a method, stops on the parser's
    [ParseError]. *)
Lemma handle_message_raises_on_malformed_attachment :
  HANDLE_DICT env0 !! type truncated_xml = Some (handle_text env0)
  /\ Py.raises (handle_message (HANDLE_DICT env0) truncated_xml)
  /\ call (handle_text env0) [OHandler handler0; OMsg truncated_xml]
     = Raise ParseError.
Proof.
  split; [reflexivity |].
  split; [exists TypeError; vm_compute; reflexivity | vm_compute; reflexivity].
Qed.

(** ** Mentions *)

Lemma span_app (p : N -> bool) (s a b : Py.str) :
  Py.span p s = (a, b) -> s = a ++ b.
Proof.
  revert a b. induction s as [|c s IH]; intros a b; simpl.
  - intros [= <- <-]. reflexivity.
  - destruct (p c).
    + destruct (Py.span p s) as [a' b'] eqn:Hs. intros [= <- <-].
      simpl. f_equal. apply IH. reflexivity.
    + intros [= <- <-]. reflexivity.
Qed.

Lemma match_at_app (s mk rest : Py.str) :
  Re.match_at s = Some (mk, rest) -> s = mk ++ rest.
Proof.
  unfold Re.match_at. destruct s as [|c t]; [discriminate|].
  destruct (N.eqb_spec c 64) as [->|Hc].
  - destruct (Py.span Re.is_name t) as [run r] eqn:Hs.
    apply span_app in Hs. subst t.
    destruct run as [|x run]; [discriminate|].
    destruct r as [|sp r]; [discriminate|].
    destruct (Re.is_whitespace sp); [|discriminate].
    intros [= <- <-]. simpl. rewrite <- app_assoc. reflexivity.
  - intros H. exfalso. revert H.
    destruct c as [|p]; [discriminate|].
    do 7 (destruct p as [p|p|]; try discriminate). congruence.
Qed.

(** Splitting loses no text: the pieces put together are the text. *)
Lemma split_from_join (fuel : nat) (cur s : Py.str) :
  Py.join (Re.split_from fuel cur s) = List.rev cur ++ s.
Proof.
  revert cur s. induction fuel as [|fuel IH]; intros cur s; simpl.
  - unfold Py.join. simpl. rewrite app_nil_r. reflexivity.
  - destruct s as [|c t].
    + unfold Py.join. simpl. reflexivity.
    + destruct (Re.match_at (c :: t)) as [[mk rest]|] eqn:Hm.
      * apply match_at_app in Hm. rewrite Hm.
        unfold Py.join in *. simpl. rewrite IH. reflexivity.
      * rewrite IH. simpl. rewrite <- app_assoc. reflexivity.
Qed.

Lemma split_join (s : Py.str) : Py.join (Re.split s) = s.
Proof. unfold Re.split. rewrite split_from_join. reflexivity. Qed.

(** When the identifiers run out at a marker, the loop ends with one text
    segment holding that marker and all that follows it, verbatim. *)
Lemma mention_loop_shortfall
  (pre : list Py.str) (mk : Py.str) (post at_list : list Py.str) :
  markers pre = length at_list ->
  Re.search mk = true ->
  mention_loop (pre ++ mk :: post) at_list
  = mention_loop pre at_list ++ [text (Py.join (mk :: post))].
Proof.
  intros Hlen Hmk. revert at_list Hlen.
  induction pre as [|one pre IH]; intros at_list Hlen.
  - destruct at_list; [|discriminate]. simpl. rewrite Hmk. reflexivity.
  - unfold markers in Hlen. simpl in Hlen. simpl.
    destruct (Re.search one) eqn:Hone.
    + destruct at_list as [|at_one at_list]; [discriminate|].
      simpl in Hlen. injection Hlen as Hlen.
      rewrite (IH at_list Hlen). reflexivity.
    + rewrite (IH at_list Hlen). reflexivity.
Qed.

(** Whenever the attachment has an [atuserlist] child, [handle_text]
    raises: at the latest when it reads the local [message], which that
    branch never assigns. *)
Lemma handle_text_mention_branch_raises
  (env : Env) (self_ : pyobj) (msg : WechatMessage)
  (xml_obj at_xml : ET.Element) :
  ET_fromstring env (extrainfo msg) = Return xml_obj ->
  ET.find [lit "atuserlist"] xml_obj = Some at_xml ->
  Py.raises (call (handle_text env) [self_; OMsg msg]).
Proof.
  intros Hparse Hfind. rewrite call_handle_text.
  unfold handle_text_body. simpl. rewrite Hparse. simpl. rewrite Hfind.
  unfold at_list_of. destruct (ET.text at_xml) as [t|]; simpl.
  - destruct (Py.split_on 44 t) as [|[|c w] l]; simpl; eexists; reflexivity.
  - eexists; reflexivity.
Qed.

(** C5 (defect of the code).  For the text "@A @B hi" with the single
    identifier wx_a, the loop of [handle_text] keeps the text from the
    second marker on as a plain-text segment, and the handler then raises
    [UnboundLocalError] instead of returning the event that carries it. *)
Theorem handle_text_shortfall_raises :
  mention_loop (Re.split (message two_markers_one_id)) [lit "wx_a"]
  = [text []; mention (lit "wx_a"); text []; text (lit "@B hi")]
  /\ call (handle_text env0) [OHandler handler0; OMsg two_markers_one_id]
     = Raise UnboundLocalError.
Proof. split; vm_compute; reflexivity. Qed.

(** C6 (as amended).  The raw message with sender "123@chatroom", text
    "@Alice hello" and attachment "<atuserlist>wx_alice</atuserlist>" is
    normalised by [handle_text] to a group message event whose content is
    the single text segment "@Alice hello": the attachment has no
    [atuserlist] child, its root being that element. *)
Theorem handle_text_root_atuserlist
  (env : Env) (self_ : pyobj) (msg : WechatMessage) :
  sender msg = lit "123@chatroom" ->
  message msg = lit "@Alice hello" ->
  extrainfo msg = lit "<atuserlist>wx_alice</atuserlist>" ->
  ET_fromstring env (lit "<atuserlist>wx_alice</atuserlist>")
  = Return (ET.mkElement (lit "atuserlist") [] (Some (lit "wx_alice")) [] None) ->
  call (handle_text env) [self_; OMsg msg]
  = Return (Some (GroupMessageEvent (uuid4 env) (timestamp msg)
                    {| user_id := self msg |} (Py.str_of_int (msgid msg))
                    [text (lit "@Alice hello")] [text (lit "@Alice hello")]
                    (wxid msg) (lit "123@chatroom"))).
Proof.
  intros Hsender Hmessage Hextra Hparse. rewrite call_handle_text.
  unfold handle_text_body. simpl. rewrite Hextra, Hparse. simpl.
  rewrite Hsender, Hmessage. reflexivity.
Qed.

Lemma handle_text_root_atuserlist_witness :
  call (handle_text env0) [OHandler handler0; OMsg alice_hello]
  = Return (Some (GroupMessageEvent (uuid4 env0) 1700000000
                    {| user_id := lit "wx_bot" |} (lit "42")
                    [text (lit "@Alice hello")] [text (lit "@Alice hello")]
                    (lit "wx_bob") (lit "123@chatroom"))).
Proof.
  exact (handle_text_root_atuserlist env0 (OHandler handler0) alice_hello
           eq_refl eq_refl eq_refl eq_refl).
Defined.

(** C6, the claim as written fails: the content of the event is not the
    two segments mention(wx_alice), text(" hello"). *)
Lemma alice_hello_is_one_text_segment :
  returned_content (call (handle_text env0) [OHandler handler0; OMsg alice_hello])
  = Some [text (lit "@Alice hello")]
  /\ returned_content (call (handle_text env0) [OHandler handler0; OMsg alice_hello])
     <> Some [mention (lit "wx_alice"); text (lit " hello")].
Proof.
  split; [vm_compute; reflexivity | vm_compute; discriminate].
Qed.

(** ** Group system messages *)

Lemma first_result_source (handlers : list pyfunc) (args : list pyobj)
  (result : option Event) (ev : Event) :
  first_result handlers args result = Return (Some ev) ->
  result = Some ev
  \/ exists handler, In handler handlers /\ call handler args = Return (Some ev).
Proof.
  revert result. induction handlers as [|h hs IH]; intros result; simpl.
  - intros [= ->]. left. reflexivity.
  - destruct (call h args) as [[ev'|]|e] eqn:Hcall; simpl.
    + intros [= ->]. right. exists h. split; [left; reflexivity | exact Hcall].
    + intros H. apply IH in H. destruct H as [H|[h' [Hin Hh']]]; [discriminate|].
      right. exists h'. split; [right; exact Hin | exact Hh'].
    + discriminate.
Qed.

(** The registered handler [event] never returns an event. *)
Lemma event_no_event (args : list pyobj) (ev : Event) :
  call event args <> Return (Some ev).
Proof.
  unfold call, event. simpl.
  destruct (Nat.eqb (length args) 2); [|discriminate].
  destruct args as [|cls [|msg [|x args]]]; try discriminate.
  destruct msg; simpl; try discriminate.
  destruct (negb _); discriminate.
Qed.

(** C9 (as amended).  For a group system message whose payload the parser
    accepts, [handle_group_sys] gives the outcome of running the
    registered handlers in order on the message and the parsed payload:
    the first result that is not [None], [None] when all return [None],
    the exception of a handler that raises.  The statements after its
    [return] are never reached: an event it returns is an event one of the
    handlers returned, and with the registered handler [event] it returns
    no event at all, so neither a [GroupMessageDeleteEvent] nor a
    [PrivateMessageDeleteEvent]. *)
Theorem handle_group_sys_first_result
  (env : Env) (handlers : list pyfunc) (self_ : pyobj) (msg : WechatMessage)
  (xml_obj : ET.Element) :
  ET_fromstring env (message msg) = Return xml_obj ->
  call (handle_group_sys env handlers) [self_; OMsg msg]
  = first_result handlers [OMsg msg; OElem xml_obj] None
  /\ (forall ev,
        call (handle_group_sys env handlers) [self_; OMsg msg] = Return (Some ev) ->
        exists handler,
          In handler handlers
          /\ call handler [OMsg msg; OElem xml_obj] = Return (Some ev))
  /\ (forall ev,
        call (handle_group_sys env GROUP_SYS_HANDLERS) [self_; OMsg msg]
        <> Return (Some ev)).
Proof.
  intros Hparse.
  assert (Heq : forall hs,
             call (handle_group_sys env hs) [self_; OMsg msg]
             = first_result hs [OMsg msg; OElem xml_obj] None).
  { intros hs. rewrite call_handle_group_sys.
    unfold handle_group_sys_body. simpl. rewrite Hparse. simpl.
    destruct (first_result hs [OMsg msg; OElem xml_obj] None) as [r|e];
      reflexivity. }
  split; [apply Heq|]. split.
  - intros ev Hev. rewrite Heq in Hev.
    apply first_result_source in Hev. destruct Hev as [H|H]; [discriminate|exact H].
  - intros ev Hev. rewrite Heq in Hev.
    apply first_result_source in Hev. destruct Hev as [H|[h [Hin Hh]]]; [discriminate|].
    destruct Hin as [<-|[]]. exact (event_no_event _ _ Hh).
Qed.

Lemma handle_group_sys_first_result_witness :
  call (handle_group_sys env0 GROUP_SYS_HANDLERS) [OHandler handler0; OMsg recall_notice]
  = first_result GROUP_SYS_HANDLERS
      [OMsg recall_notice;
       OElem (ET.mkElement (lit "sysmsg") [] None
                [ET.mkElement (lit "revokemsg") [] None
                   [ET.mkElement (lit "newmsgid") [] (Some (lit "77")) [] None]
                   None]
                None)]
      None.
Proof.
  refine (proj1 (handle_group_sys_first_result env0 GROUP_SYS_HANDLERS
                   (OHandler handler0) recall_notice _ _)).
  vm_compute. reflexivity.
Defined.

(** C9, the claim as written fails: on a group system message whose
    payload is no XML, [handle_group_sys] returns nothing; it raises
    [ParseError]. *)
Lemma handle_group_sys_raises_on_bad_payload :
  type not_xml = GROUP_SYS_MSG env0
  /\ call (handle_group_sys env0 GROUP_SYS_HANDLERS) [OHandler handler0; OMsg not_xml]
     = Raise ParseError.
Proof. split; vm_compute; reflexivity. Qed.

End MessageFacts.

(* ===================================================================== *)
(** * Properties of the action dispatcher *)
(* ===================================================================== *)

Module ManagerFacts.

Import Manager.

Lemma getattr_missing (self : instance) (name : Py.str) :
  has_attribute self name = false -> getattr self name = Raise AttributeError.
Proof.
  unfold has_attribute, getattr. destruct (assoc name self); [discriminate|reflexivity].
Qed.

(** C1 (as amended).  For a request whose action name is not an attribute
    of the manager, [request] makes no call on the automation capability
    and builds no response: [getattr] raises [AttributeError] in front of
    the [try], and the exception reaches the caller. *)
Theorem request_unknown_attribute
  (self : instance) (req : ActionRequest) (calls : list com_call) :
  has_attribute self (action req) = false ->
  request self req calls = Res (Raise AttributeError) calls.
Proof.
  intros Hno. unfold request. rewrite (getattr_missing _ _ Hno). reflexivity.
Qed.

Lemma request_unknown_attribute_witness :
  has_attribute (manager world0 5) (lit "delete_universe") = false
  /\ request (manager world0 5) (plain_request "delete_universe") []
     = Res (Raise AttributeError) [].
Proof.
  assert (H : has_attribute (manager world0 5)
                (action (plain_request "delete_universe")) = false)
    by reflexivity.
  split; [exact H | exact (request_unknown_attribute _ _ [] H)].
Defined.

(** C1, the claim as written fails: "delete_universe" is not a declared
    action and [request] raises instead of answering; "close" is not a
    declared action either, and [request] runs it on the capability. *)
Lemma request_undeclared_actions :
  is_declared (lit "delete_universe") = false
  /\ request (manager world0 5) (plain_request "delete_universe") []
     = Res (Raise AttributeError) []
  /\ is_declared (lit "close") = false
  /\ request (manager world0 5) (plain_request "close") []
     = Res (Return (ActionResponse
                      [("status", VInt 200); ("msg", VStr msg_ok);
                       ("data", VNone)]%string))
           [{| method := "close"; args := [] |}].
Proof. repeat split; vm_compute; reflexivity. Qed.

(** C2 (as amended).  When the operation bound to the action name returns,
    [request] answers with an ok response whose payload is the value
    returned; when it raises an exception of class [Exception], [request]
    answers with an internal-error response and the exception goes no
    further. *)
Theorem request_wraps_operation
  (self : instance) (req : ActionRequest) (func : attribute)
  (calls calls' : list com_call) (o : outcome pyval) :
  getattr self (action req) = Return func ->
  call_attribute func (request_params req) calls = Res o calls' ->
  (forall e, o = Raise e -> Py.is_Exception e = true) ->
  exists response,
    request self req calls = Res (Return response) calls'
    /\ match o with
       | Return v => is_ok response = true /\ field "data" response = Some v
       | Raise _ => is_internal_error response = true
       end.
Proof.
  intros Hget Hcall Hexc. unfold request. rewrite Hget, Hcall.
  destruct o as [v|e].
  - eexists. split; [reflexivity|]. split; reflexivity.
  - rewrite (Hexc e eq_refl). eexists. split; reflexivity.
Qed.

Lemma request_wraps_operation_witness :
  exists response,
    request (manager world0 5) (plain_request "get_wxid") []
    = Res (Return response) [{| method := "get_self_info"; args := [] |}]
    /\ is_internal_error response = true.
Proof.
  refine (request_wraps_operation (manager world0 5) (plain_request "get_wxid")
            (method0 (get_wxid world0)) [] _ (Raise KeyError) _ _ _).
  - reflexivity.
  - vm_compute. reflexivity.
  - intros e [= <-]. reflexivity.
Defined.

(** C2, the claim as written fails: the operation bound to "init" leaves
    through [exit(0)] when the COM component is not registered, and the
    [SystemExit] goes through [request]. *)
Lemma request_init_exits :
  call_attribute (method0 (init world0 5)) ∅ []
  = Res (Raise (SystemExit 0)) [{| method := "init"; args := [] |}]
  /\ request (manager world0 5) (plain_request "init") []
     = Res (Raise (SystemExit 0)) [{| method := "init"; args := [] |}].
Proof. split; vm_compute; reflexivity. Qed.

(** The mapping of the scenario. *)
Lemma getattr_get_self_info (w : World) (fuel : nat) :
  getattr (manager w fuel) (lit "get_self_info")
  = Return (method0 (get_self_info w)).
Proof. reflexivity. Qed.

(** C3 (as amended).  Against a capability whose [get_self_info] returns
    {WxId: "abc", Name: "Bot"}, the request {action: "get_self_info"} is
    answered with status 200 and, as data, the response of the action
    itself, which has status "ok", retcode 200 and the mapping
    {user_id: "abc", user_name: "Bot", user_displayname: ""} as data. *)
Theorem request_get_self_info (w : World) (fuel : nat) (calls : list com_call) :
  respond w calls {| method := "get_self_info"; args := [] |}
  = Return (VDict [(lit "WxId", VStr (lit "abc")); (lit "Name", VStr (lit "Bot"))]) ->
  request (manager w fuel) (plain_request "get_self_info") calls
  = Res (Return (ActionResponse
                   [("status", VInt 200); ("msg", VStr msg_ok);
                    ("data",
                     ActionResponse
                       [("status", VStr (lit "ok")); ("retcode", VInt 200);
                        ("data",
                         VDict [(lit "user_id", VStr (lit "abc"));
                                (lit "user_name", VStr (lit "Bot"));
                                (lit "user_displayname", VStr [])])])]%string))
        (calls ++ [{| method := "get_self_info"; args := [] |}]).
Proof.
  intros Hinfo. unfold request. cbn [action plain_request request_params].
  rewrite getattr_get_self_info.
  unfold call_attribute, method0, call_method. cbn [params body].
  change (map_to_list (∅ : gmap Py.str pyval)) with (@nil (Py.str * pyval)).
  cbn [List.map List.forallb bind_params lift mbind].
  unfold get_self_info, mbind, com. rewrite Hinfo. reflexivity.
Qed.

Lemma request_get_self_info_witness :
  request (manager world0 5) (plain_request "get_self_info") []
  = Res (Return (ActionResponse
                   [("status", VInt 200); ("msg", VStr msg_ok);
                    ("data",
                     ActionResponse
                       [("status", VStr (lit "ok")); ("retcode", VInt 200);
                        ("data",
                         VDict [(lit "user_id", VStr (lit "abc"));
                                (lit "user_name", VStr (lit "Bot"));
                                (lit "user_displayname", VStr [])])])]%string))
        [{| method := "get_self_info"; args := [] |}].
Proof. exact (request_get_self_info world0 5 [] eq_refl). Defined.

(** C3, the claim as written fails: the status of the response is not
    "ok" and its data is not the mapping. *)
Lemma request_get_self_info_is_wrapped :
  exists response calls,
    request (manager world0 5) (plain_request "get_self_info") []
    = Res (Return response) calls
    /\ field "status" response <> Some (VStr (lit "ok"))
    /\ field "data" response
       <> Some (VDict [(lit "user_id", VStr (lit "abc"));
                       (lit "user_name", VStr (lit "Bot"));
                       (lit "user_displayname", VStr [])]).
Proof.
  eexists. eexists. split; [vm_compute; reflexivity|].
  split; vm_compute; discriminate.
Qed.

End ManagerFacts.

(* ===================================================================== *)
(** * Properties of the access-token check *)
(* ===================================================================== *)

Module GatewayFacts.

Import Gateway.

Section AnyDriver.

Variable get_auth_bearer : option Py.str -> option Py.str.
Variable Driver : Type.
Variable ws_connect : Driver -> WebSocket -> nat * Driver.
Variable ws_disconnect : Driver -> nat -> Driver.
Variable sessions : Driver -> WebSocket -> Prop.

(** Registering adds at most the connection registered; unregistering
    adds none. *)
Hypothesis ws_connect_sessions : forall d ws ws',
  sessions (snd (ws_connect d ws)) ws' -> ws' = ws \/ sessions d ws'.
Hypothesis ws_disconnect_sessions : forall d seq ws',
  sessions (ws_disconnect d seq) ws' -> sessions d ws'.

Local Abbreviation check := (_check_access_token get_auth_bearer).
Local Abbreviation handle := (_handle_ws get_auth_bearer ws_connect ws_disconnect).
Local Abbreviation serve_ := (serve get_auth_bearer ws_connect ws_disconnect).

(** The token a request presents. *)
Local Abbreviation presented r := (get_auth_bearer (headers r !! lit "Authorization")).

Lemma check_rejects (config : Config) (r : Request) :
  truthy (onebot_access_token config) = true ->
  presented r <> onebot_access_token config ->
  exists msg, check config r = Some {| status_code := 403; content := msg |}.
Proof.
  intros Hsecret Hne. unfold _check_access_token. rewrite Hsecret.
  rewrite bool_decide_eq_false_2 by congruence. simpl. eexists. reflexivity.
Qed.

Lemma check_accepts (config : Config) (r : Request) :
  truthy (onebot_access_token config) = true ->
  check config r = None ->
  presented r = onebot_access_token config.
Proof.
  intros Hsecret. unfold _check_access_token. rewrite Hsecret. simpl.
  destruct (bool_decide_reflect
              (onebot_access_token config = presented r)) as [Heq|Hne];
    simpl; [congruence | discriminate].
Qed.

(** One call of [_handle_ws] adds no session but the connection it was
    called on, and this one only after the check let it pass. *)
Lemma handle_ws_sessions (config : Config) (websocket : WebSocket)
  (incoming : list (outcome unit)) (st : state Driver) (ws' : WebSocket) :
  sessions (driver (snd (handle config websocket incoming st))) ws' ->
  sessions (driver st) ws'
  \/ (ws' = websocket /\ check config (request websocket) = None).
Proof.
  unfold _handle_ws.
  destruct (check config (request websocket)) as [response|] eqn:Hcheck.
  - simpl. auto.
  - destruct (ws_connect (driver st) websocket) as [seq d] eqn:Hconn.
    assert (Hd : forall x, sessions d x -> x = websocket \/ sessions (driver st) x).
    { intros x Hx. apply ws_connect_sessions. rewrite Hconn. exact Hx. }
    destruct (read_loop incoming) as [e|]; simpl; intros Hs.
    + apply ws_disconnect_sessions in Hs. apply Hd in Hs. tauto.
    + apply Hd in Hs. tauto.
Qed.

Lemma serve_sessions (config : Config)
  (conns : list (WebSocket * list (outcome unit))) (st : state Driver)
  (ws' : WebSocket) :
  sessions (driver (serve_ config conns st)) ws' ->
  sessions (driver st) ws' \/ check config (request ws') = None.
Proof.
  revert st. induction conns as [|[websocket incoming] conns IH]; intros st; simpl.
  - auto.
  - intros Hs. apply IH in Hs. destruct Hs as [Hs|Hs]; [|auto].
    apply handle_ws_sessions in Hs. destruct Hs as [Hs|[-> Hs]]; auto.
Qed.

(** C8.  With a secret configured, a connection whose bearer token is
    absent or differs from the secret is closed with code 1008 and is
    not registered: the driver is left as it was; and whatever
    connections are handled afterwards, it is not one of the sessions
    event fan-out writes to. *)
Theorem reject_before_open (config : Config) (websocket : WebSocket) :
  truthy (onebot_access_token config) = true ->
  presented (request websocket) <> onebot_access_token config ->
  (forall incoming st,
      exists msg,
        handle config websocket incoming st
        = (Rejected,
           {| driver := driver st;
              ops := ops st ++ [Close websocket (Some 1008) (Some msg)] |}))
  /\ (forall conns st,
        ~ sessions (driver st) websocket ->
        ~ sessions (driver (serve_ config conns st)) websocket).
Proof.
  intros Hsecret Hne. split.
  - intros incoming st.
    destruct (check_rejects config (request websocket) Hsecret Hne) as [msg Hmsg].
    exists msg. unfold _handle_ws. rewrite Hmsg. reflexivity.
  - intros conns st Hout Hin. apply serve_sessions in Hin.
    destruct Hin as [Hin|Hin]; [exact (Hout Hin)|].
    apply (check_accepts _ _ Hsecret) in Hin. exact (Hne Hin).
Qed.

(** C10.  Without a configured secret (the token is absent or empty) the
    check lets every request pass, whatever it presents: any two
    requests get the same answer, no rejection. *)
Theorem check_without_secret (config : Config) (r1 r2 : Request) :
  truthy (onebot_access_token config) = false ->
  check config r1 = None /\ check config r2 = None.
Proof.
  intros Hnone. unfold _check_access_token. rewrite Hnone. split; reflexivity.
Qed.

End AnyDriver.

Lemma ws_connect0_sessions (d : Driver0) (ws ws' : WebSocket) :
  sessions0 (snd (ws_connect0 d ws)) ws' -> ws' = ws \/ sessions0 d ws'.
Proof.
  unfold sessions0, ws_connect0. simpl. intros [seq Hseq].
  destruct (decide (next_seq d = seq)) as [Heq|Hne].
  - subst seq. rewrite lookup_insert_eq in Hseq. left. congruence.
  - rewrite lookup_insert_ne in Hseq by exact Hne. right. eauto.
Qed.

Lemma ws_disconnect0_sessions (d : Driver0) (seq : nat) (ws' : WebSocket) :
  sessions0 (ws_disconnect0 d seq) ws' -> sessions0 d ws'.
Proof.
  unfold sessions0, ws_disconnect0. simpl. intros [seq' Hseq'].
  destruct (decide (seq = seq')) as [Heq|Hne].
  - subst seq'. rewrite lookup_delete_eq in Hseq'. discriminate.
  - rewrite lookup_delete_ne in Hseq' by exact Hne. eauto.
Qed.

Lemma reject_before_open_witness :
  (forall incoming st,
      exists msg,
        _handle_ws bearer_token ws_connect0 ws_disconnect0
          secret_config intruder incoming st
        = (Rejected,
           {| driver := driver st;
              ops := ops st ++ [Close intruder (Some 1008) (Some msg)] |}))
  /\ (forall conns st,
        ~ sessions0 (driver st) intruder ->
        ~ sessions0
            (driver (serve bearer_token ws_connect0 ws_disconnect0
                       secret_config conns st))
            intruder).
Proof.
  refine (reject_before_open bearer_token Driver0 ws_connect0 ws_disconnect0
            sessions0 ws_connect0_sessions ws_disconnect0_sessions
            secret_config intruder _ _).
  - reflexivity.
  - vm_compute. discriminate.
Defined.

Lemma check_without_secret_witness :
  _check_access_token bearer_token open_config (request intruder) = None
  /\ _check_access_token bearer_token open_config (request member) = None.
Proof.
  exact (check_without_secret bearer_token open_config
           (request intruder) (request member) eq_refl).
Defined.

End GatewayFacts.

(* ===================================================================== *)
(** * More about the normaliser *)
(* ===================================================================== *)

Module MessageMore.

Import Message MessageProps.

(** ** Dispatch over the registry *)

(** With a registry whose functions all take [self] and [msg], as the
    eleven decorated handlers of the file do, [handle_message] never
    returns an event: it returns [None] for a type without handler and
    raises [TypeError] for a type with one, since it hands the function the
    message alone. *)
Theorem handle_message_never_an_event
  (D : gmap Z pyfunc) (msg : WechatMessage) :
  two_parameters D ->
  (D !! type msg = None /\ handle_message D msg = Return None)
  \/ (is_Some (D !! type msg) /\ handle_message D msg = Raise TypeError).
Proof.
  intros Htwo. destruct (D !! type msg) as [h|] eqn:Hlookup.
  - right. split; [eauto|].
    rewrite (MessageFacts.handle_message_calls_handler _ _ _ Hlookup).
    unfold call. rewrite (Htwo _ _ Hlookup). reflexivity.
  - left. split; [reflexivity|]. unfold handle_message. rewrite Hlookup. reflexivity.
Qed.

Lemma HANDLE_DICT_two_parameters (env : Env) : two_parameters (HANDLE_DICT env).
Proof.
  intros t h. unfold HANDLE_DICT, add_handler.
  destruct (decide (GROUP_SYS_MSG env = t)) as [<-|Hne].
  - rewrite lookup_insert_eq. intros [= <-]. reflexivity.
  - rewrite lookup_insert_ne by exact Hne.
    destruct (decide (TEXT_MSG env = t)) as [<-|Hne'].
    + rewrite lookup_insert_eq. intros [= <-]. reflexivity.
    + rewrite lookup_insert_ne by exact Hne'. rewrite lookup_empty. discriminate.
Qed.

Lemma handle_message_never_an_event_witness :
  (HANDLE_DICT env0 !! type alice_hello = None
   /\ handle_message (HANDLE_DICT env0) alice_hello = Return None)
  \/ (is_Some (HANDLE_DICT env0 !! type alice_hello)
      /\ handle_message (HANDLE_DICT env0) alice_hello = Raise TypeError).
Proof.
  exact (handle_message_never_an_event (HANDLE_DICT env0) alice_hello
           (HANDLE_DICT_two_parameters env0)).
Defined.


(** ** Text without mentions *)

(** A text message whose attachment parses and has no [atuserlist] child
    becomes one event with the text as its single segment; the event is a
    group message of group [sender] exactly when [sender] contains
    "@chatroom", a private message otherwise, and its user is [wxid]. *)
Theorem handle_text_plain
  (env : Env) (self_ : pyobj) (msg : WechatMessage) (xml_obj : ET.Element) :
  ET_fromstring env (extrainfo msg) = Return xml_obj ->
  ET.find [lit "atuserlist"] xml_obj = None ->
  exists ev,
    call (handle_text env) [self_; OMsg msg] = Return (Some ev)
    /\ content ev = Some [text (message msg)]
    /\ event_user ev = Some (wxid msg)
    /\ event_group ev
       = if Py.contains (lit "@chatroom") (sender msg) then Some (sender msg)
         else None.
Proof.
  intros Hparse Hfind. rewrite MessageFacts.call_handle_text.
  unfold handle_text_body. cbn [as_message Py.bind]. rewrite Hparse.
  cbn [Py.bind]. rewrite Hfind.
  destruct (Py.contains (lit "@chatroom") (sender msg));
    eexists; repeat split; reflexivity.
Qed.

Lemma handle_text_plain_witness :
  exists ev,
    call (handle_text env0) [OHandler handler0; OMsg private_hello]
    = Return (Some ev)
    /\ content ev = Some [text (lit "hello there")]
    /\ event_user ev = Some (lit "wx_bob")
    /\ event_group ev = None.
Proof.
  refine (handle_text_plain env0 (OHandler handler0) private_hello
            (ET.mkElement (lit "msgsource") [] None
               [ET.mkElement (lit "signature") [] (Some (lit "v1")) [] None] None)
            _ eq_refl).
  vm_compute. reflexivity.
Defined.

(** ** Text with mentions *)

Lemma split_on_not_nil (sep : N) (s : Py.str) : Py.split_on sep s <> [].
Proof.
  destruct s as [|c s]; simpl; [discriminate|].
  destruct (N.eqb c sep); [discriminate|].
  destruct (Py.split_on sep s); discriminate.
Qed.

(** A text message whose attachment has an [atuserlist] child never yields
    an event: [handle_text] raises [AttributeError] when the element has no
    text, and [UnboundLocalError] in every other case. *)
Theorem handle_text_mention_branch_exception
  (env : Env) (self_ : pyobj) (msg : WechatMessage)
  (xml_obj at_xml : ET.Element) :
  ET_fromstring env (extrainfo msg) = Return xml_obj ->
  ET.find [lit "atuserlist"] xml_obj = Some at_xml ->
  call (handle_text env) [self_; OMsg msg]
  = match ET.text at_xml with
    | None => Raise AttributeError
    | Some _ => Raise UnboundLocalError
    end.
Proof.
  intros Hparse Hfind. rewrite MessageFacts.call_handle_text.
  unfold handle_text_body. cbn [as_message Py.bind]. rewrite Hparse.
  cbn [Py.bind]. rewrite Hfind. unfold at_list_of.
  destruct (ET.text at_xml) as [t|]; [|reflexivity].
  pose proof (split_on_not_nil 44 t) as Hne.
  destruct (Py.split_on 44 t) as [|[|c w] l]; [congruence | reflexivity ..].
Qed.

Lemma handle_text_mention_branch_exception_witness :
  call (handle_text env0) [OHandler handler0; OMsg two_markers_one_id]
  = Raise UnboundLocalError.
Proof.
  refine (handle_text_mention_branch_exception env0 (OHandler handler0)
            two_markers_one_id
            (ET.mkElement (lit "msgsource") [] None
               [ET.mkElement (lit "atuserlist") [] (Some (lit "wx_a")) [] None] None)
            (ET.mkElement (lit "atuserlist") [] (Some (lit "wx_a")) [] None)
            _ _).
  - vm_compute. reflexivity.
  - vm_compute. reflexivity.
Defined.


(** With at least as many identifiers as markers, every piece of the text
    becomes exactly one segment, and the text segments are the pieces
    without marker, in order. *)
Theorem mention_loop_enough_identifiers (msg_list at_list : list Py.str) :
  (markers msg_list <= length at_list)%nat ->
  length (mention_loop msg_list at_list) = length msg_list
  /\ omap segment_text (mention_loop msg_list at_list)
     = List.filter (fun piece => negb (Re.search piece)) msg_list.
Proof.
  unfold markers. revert at_list.
  induction msg_list as [|one rest IH]; intros at_list Hle.
  - split; reflexivity.
  - cbn [mention_loop List.filter] in *.
    destruct (Re.search one) eqn:Hone; cbn [negb].
    + destruct at_list as [|at_one at_list]; [cbn [length] in Hle; lia|].
      cbn [length] in Hle.
      destruct (IH at_list) as [Hlen Htext]; [lia|].
      split; [cbn [length]; rewrite Hlen; reflexivity|].
      destruct (Py.str_eqb at_one (lit "notify@all")); exact Htext.
    + destruct (IH at_list) as [Hlen Htext]; [exact Hle|].
      split; [cbn [length]; rewrite Hlen; reflexivity|].
      rewrite <- Htext. reflexivity.
Qed.

Lemma mention_loop_enough_identifiers_witness :
  length (mention_loop (Re.split (lit "@A hi @B ")) [lit "wx_a"; lit "wx_b"])
  = length (Re.split (lit "@A hi @B "))
  /\ omap segment_text
       (mention_loop (Re.split (lit "@A hi @B ")) [lit "wx_a"; lit "wx_b"])
     = List.filter (fun piece => negb (Re.search piece))
         (Re.split (lit "@A hi @B ")).
Proof.
  refine (mention_loop_enough_identifiers (Re.split (lit "@A hi @B "))
            [lit "wx_a"; lit "wx_b"] _).
  vm_compute. lia.
Defined.

Lemma markers_split (msg_list : list Py.str) (n : nat) :
  (n < markers msg_list)%nat ->
  exists pre mk post,
    msg_list = pre ++ mk :: post
    /\ markers pre = n
    /\ Re.search mk = true.
Proof.
  revert n. induction msg_list as [|one rest IH]; intros n Hn.
  - unfold markers in Hn. cbn in Hn. lia.
  - unfold markers in Hn. cbn [List.filter] in Hn.
    destruct (Re.search one) eqn:Hone.
    + destruct n as [|n].
      * exists [], one, rest. repeat split; assumption || reflexivity.
      * cbn [length] in Hn.
        destruct (IH n) as (pre & mk & post & -> & Hpre & Hmk); [unfold markers; lia|].
        exists (one :: pre), mk, post. repeat split; [|exact Hmk].
        unfold markers. cbn [List.filter]. rewrite Hone. cbn [length].
        unfold markers in Hpre. rewrite Hpre. reflexivity.
    + destruct (IH n) as (pre & mk & post & -> & Hpre & Hmk); [exact Hn|].
      exists (one :: pre), mk, post. repeat split; [|exact Hmk].
      unfold markers. cbn [List.filter]. rewrite Hone. exact Hpre.
Qed.

(** When a text has more markers than there are identifiers, the loop ends
    with a text segment that holds the rest of the text verbatim: the text
    is the pieces paired so far followed by the content of that last
    segment. *)
Theorem mention_loop_keeps_the_rest (s : Py.str) (at_list : list Py.str) :
  (length at_list < markers (Re.split s))%nat ->
  exists pre rest,
    Re.split s = pre ++ rest
    /\ markers pre = length at_list
    /\ mention_loop (Re.split s) at_list
       = mention_loop pre at_list ++ [text (Py.join rest)]
    /\ s = Py.join pre ++ Py.join rest.
Proof.
  intros Hlt.
  destruct (markers_split _ _ Hlt) as (pre & mk & post & Hsplit & Hpre & Hmk).
  exists pre, (mk :: post). rewrite Hsplit. repeat split.
  - exact Hpre.
  - apply MessageFacts.mention_loop_shortfall; assumption.
  - rewrite <- (MessageFacts.split_join s), Hsplit. unfold Py.join.
    apply concat_app.
Qed.

Lemma mention_loop_keeps_the_rest_witness :
  exists pre rest,
    Re.split (lit "@A @B hi") = pre ++ rest
    /\ markers pre = length [lit "wx_a"]
    /\ mention_loop (Re.split (lit "@A @B hi")) [lit "wx_a"]
       = mention_loop pre [lit "wx_a"] ++ [text (Py.join rest)]
    /\ lit "@A @B hi" = Py.join pre ++ Py.join rest.
Proof.
  refine (mention_loop_keeps_the_rest (lit "@A @B hi") [lit "wx_a"] _).
  vm_compute. lia.
Defined.

(** ** The pieces of a split text *)

Lemma span_spec (p : N -> bool) (s a b : Py.str) :
  Py.span p s = (a, b) ->
  s = a ++ b /\ forallb p a = true
  /\ match b with [] => True | x :: _ => p x = false end.
Proof.
  revert a b. induction s as [|c s IH]; intros a b; cbn [Py.span].
  - intros [= <- <-]. repeat split.
  - destruct (p c) eqn:Hc.
    + destruct (Py.span p s) as [a' b'] eqn:Hs. intros [= <- <-].
      destruct (IH a' b' eq_refl) as (-> & Hall & Hstop).
      repeat split; [cbn [forallb]; rewrite Hc; exact Hall | exact Hstop].
    + intros [= <- <-]. repeat split. exact Hc.
Qed.

Lemma span_stop (p : N -> bool) (a : Py.str) (x : N) (b : Py.str) :
  forallb p a = true -> p x = false ->
  Py.span p (a ++ x :: b) = (a, x :: b).
Proof.
  intros Hall Hx. induction a as [|c a IH]; cbn [Py.span app].
  - rewrite Hx. reflexivity.
  - cbn [forallb] in Hall. apply andb_true_iff in Hall. destruct Hall as [Hc Hall].
    rewrite Hc, (IH Hall). reflexivity.
Qed.

Lemma match_at_head (c : N) (t : Py.str) (x : Py.str * Py.str) :
  Re.match_at (c :: t) = Some x -> c = 64%N.
Proof.
  destruct (N.eqb_spec c 64) as [->|Hc]; [reflexivity|].
  unfold Re.match_at. destruct c as [|p]; [discriminate|].
  do 7 (destruct p as [p|p|]; try discriminate). congruence.
Qed.

Lemma whitespace_not_name (c : N) : Re.is_whitespace c = true -> Re.is_name c = false.
Proof. intros H. unfold Re.is_name. rewrite H. apply andb_false_r. Qed.

Lemma match_at_inv (s mk rest : Py.str) :
  Re.match_at s = Some (mk, rest) ->
  exists run sp,
    s = 64%N :: run ++ sp :: rest
    /\ mk = 64%N :: run ++ [sp]
    /\ run <> []
    /\ forallb Re.is_name run = true
    /\ Re.is_whitespace sp = true.
Proof.
  destruct s as [|c t]; [discriminate|]. intros H.
  pose proof (match_at_head _ _ _ H) as ->. unfold Re.match_at in H.
  destruct (Py.span Re.is_name t) as [run r] eqn:Hs.
  apply span_spec in Hs. destruct Hs as (-> & Hall & _).
  destruct run as [|x run]; [discriminate|].
  destruct r as [|sp r]; [discriminate|].
  destruct (Re.is_whitespace sp) eqn:Hsp; [|discriminate].
  injection H as <- <-. exists (x :: run), sp.
  split; [reflexivity|]. split; [reflexivity|]. split; [discriminate|].
  split; assumption.
Qed.

Lemma match_at_intro (run : Py.str) (sp : N) (rest : Py.str) :
  run <> [] -> forallb Re.is_name run = true -> Re.is_whitespace sp = true ->
  Re.match_at (64%N :: run ++ sp :: rest) = Some (64%N :: run ++ [sp], rest).
Proof.
  intros Hne Hall Hsp. unfold Re.match_at.
  rewrite (span_stop _ _ _ _ Hall (whitespace_not_name _ Hsp)).
  destruct run as [|x run]; [congruence|]. rewrite Hsp. reflexivity.
Qed.

Lemma match_at_whole (s mk rest : Py.str) :
  Re.match_at s = Some (mk, rest) -> whole_match mk.
Proof.
  intros H. apply match_at_inv in H.
  destruct H as (run & sp & _ & -> & Hne & Hall & Hsp).
  unfold whole_match. exact (match_at_intro run sp [] Hne Hall Hsp).
Qed.

Lemma match_at_extends (u s : Py.str) :
  Re.match_at (u ++ s) = None -> Re.match_at u = None.
Proof.
  intros Hnone. destruct (Re.match_at u) as [[mk rest]|] eqn:Hu; [|reflexivity].
  apply match_at_inv in Hu. destruct Hu as (run & sp & -> & _ & Hne & Hall & Hsp).
  cbn [app] in Hnone. rewrite <- app_assoc in Hnone. cbn [app] in Hnone.
  rewrite (match_at_intro run sp (rest ++ s) Hne Hall Hsp) in Hnone. discriminate.
Qed.

Lemma search_false (l : Py.str) :
  (forall k, (k < length l)%nat -> Re.match_at (drop k l) = None) ->
  Re.search l = false.
Proof.
  induction l as [|c l IH]; intros H; [reflexivity|].
  cbn [Re.search].
  assert (H0 : Re.match_at (c :: l) = None) by (apply (H 0%nat); cbn [length]; lia).
  rewrite H0. apply IH. intros k Hk. apply (H (S k)). cbn [length]. lia.
Qed.

Lemma search_true_of_whole (m : Py.str) : whole_match m -> Re.search m = true.
Proof.
  unfold whole_match. destruct m as [|c m]; [discriminate|].
  intros H. cbn [Re.search]. rewrite H. reflexivity.
Qed.

Lemma split_from_alternates (fuel : nat) (cur s : Py.str) :
  (length s <= fuel)%nat ->
  (forall k, (k < length cur)%nat ->
             Re.match_at (drop k (List.rev cur ++ s)) = None) ->
  exists texts marks,
    Re.split_from fuel cur s = interleave texts marks
    /\ length texts = S (length marks)
    /\ Forall (fun t => Re.search t = false) texts
    /\ Forall whole_match marks.
Proof.
  revert cur s. induction fuel as [|fuel IH]; intros cur s Hlen Hinv.
  - destruct s; [|cbn [length] in Hlen; lia].
    exists [List.rev cur ++ []], []. repeat split; [|constructor].
    constructor; [|constructor]. rewrite app_nil_r in *.
    apply search_false. intros k Hk. apply Hinv. rewrite length_rev in Hk. exact Hk.
  - cbn [Re.split_from]. destruct s as [|c t].
    + exists [List.rev cur], []. repeat split; [|constructor].
      constructor; [|constructor]. rewrite app_nil_r in Hinv.
      apply search_false. intros k Hk. apply Hinv. rewrite length_rev in Hk. exact Hk.
    + destruct (Re.match_at (c :: t)) as [[mk rest]|] eqn:Hm.
      * assert (Hrest : (length rest <= fuel)%nat).
        { destruct (match_at_inv _ _ _ Hm) as (run & sp & Hs & _).
          apply (f_equal (@length N)) in Hs.
          cbn [length] in Hs, Hlen. rewrite length_app in Hs.
          cbn [length] in Hs. lia. }
        destruct (IH [] rest Hrest) as (texts & marks & -> & Hl & Ht & Hmk).
        { intros k Hk. cbn [length] in Hk. lia. }
        exists (List.rev cur :: texts), (mk :: marks).
        destruct texts as [|t0 texts]; [discriminate|].
        repeat split.
        -- cbn [length] in *. lia.
        -- constructor; [|exact Ht]. apply search_false. intros k Hk.
           rewrite length_rev in Hk.
           apply (match_at_extends _ (c :: t)).
           rewrite <- drop_app_le by (rewrite length_rev; lia).
           apply Hinv. exact Hk.
        -- constructor; [exact (match_at_whole _ _ _ Hm) | exact Hmk].
      * apply IH; [cbn [length] in Hlen; lia|].
        intros k Hk. cbn [List.rev]. rewrite <- app_assoc. cbn [app].
        cbn [length] in Hk.
        destruct (decide (k = length cur)) as [->|Hne].
        -- rewrite <- length_rev. rewrite drop_app_length. exact Hm.
        -- apply Hinv. lia.
Qed.

(** The pieces of a text split on the mention pattern alternate: text,
    marker, text, ..., text.  Every marker piece is one whole match of the
    pattern and no text piece contains a match, so the test of the loop
    tells them apart, and the pieces put together are the text. *)
Theorem split_alternates (s : Py.str) :
  exists texts marks,
    Re.split s = interleave texts marks
    /\ length texts = S (length marks)
    /\ Forall (fun t => Re.search t = false) texts
    /\ Forall (fun m => whole_match m /\ Re.search m = true) marks
    /\ Py.join (Re.split s) = s.
Proof.
  destruct (split_from_alternates (length s) [] s) as (texts & marks & H & Hl & Ht & Hm).
  - lia.
  - intros k Hk. cbn [length] in Hk. lia.
  - exists texts, marks. repeat split; try assumption.
    + eapply Forall_impl; [exact Hm|]. intros m Hw.
      split; [exact Hw | exact (search_true_of_whole _ Hw)].
    + apply MessageFacts.split_join.
Qed.

End MessageMore.

(* ===================================================================== *)
(** * Properties of the other handlers *)
(* ===================================================================== *)

Module HandlersFacts.

Import Handlers.
Import Message(OMsg, OElem, OHandler, sender, wxid, message, red_bag_text).

(** ** [_find_file] *)

(** [_find_file] gives a file that exists, preferring jpg to png and png to
    gif; it gives [None] exactly when none of the three exists. *)
Theorem find_file_prefers_jpg (exists_ : Py.str -> bool) (file_path : Py.str) :
  let jpg := file_path ++ lit ".jpg" in
  let png := file_path ++ lit ".png" in
  let gif := file_path ++ lit ".gif" in
  match _find_file exists_ file_path with
  | Some f =>
      exists_ f = true
      /\ (f = jpg
          \/ (f = png /\ exists_ jpg = false)
          \/ (f = gif /\ exists_ jpg = false /\ exists_ png = false))
  | None => exists_ jpg = false /\ exists_ png = false /\ exists_ gif = false
  end.
Proof.
  cbn zeta. unfold _find_file.
  destruct (exists_ (file_path ++ lit ".jpg")) eqn:Hjpg; [auto|].
  destruct (exists_ (file_path ++ lit ".png")) eqn:Hpng; [auto|].
  destruct (exists_ (file_path ++ lit ".gif")) eqn:Hgif; [|auto].
  split; [exact Hgif|]. right. right. auto.
Qed.

(** ** System notices *)

Lemma red_bag_is_no_poke :
  Py.contains SysMessageHandler.poke_text red_bag_text = false.
Proof. vm_compute. reflexivity. Qed.

(** Called on a message, [read_bag] gives a notice exactly when the text
    is the red-packet sentence, [poke] exactly when the text contains the
    poke phrase; no message gets both, so the order of the two in the
    registry does not matter; and the notice is a group notice of group
    [sender] exactly when [sender] contains "@chatroom". *)
Theorem sys_notices_classified
  (env : Env) (cls : Message.pyobj) (m : Message.WechatMessage) :
  let bag := call (SysMessageHandler.read_bag env) [cls; OMsg m] in
  let pat := call (SysMessageHandler.poke env) [cls; OMsg m] in
  ((exists ev, bag = Ok (Some ev)) <-> message m = red_bag_text)
  /\ ((exists ev, pat = Ok (Some ev))
      <-> Py.contains SysMessageHandler.poke_text (message m) = true)
  /\ ~ ((exists ev, bag = Ok (Some ev)) /\ (exists ev, pat = Ok (Some ev)))
  /\ (forall ev, bag = Ok (Some ev) \/ pat = Ok (Some ev) ->
        user_of ev = wxid m
        /\ group_of ev
           = if Py.contains (lit "@chatroom") (sender m) then Some (sender m)
             else None).
Proof.
  cbn zeta. unfold call. cbn [SysMessageHandler.read_bag SysMessageHandler.poke
    params body length Nat.eqb as_message rbind].
  unfold Py.str_eqb.
  destruct (bool_decide_reflect (message m = red_bag_text)) as [Hbag|Hbag];
    cbn [negb].
  - rewrite Hbag, red_bag_is_no_poke. cbn [negb].
    destruct (Py.contains (lit "@chatroom") (sender m)).
    + split; [split; eauto|]. split; [split; [intros [ev H]|]; discriminate|].
      split; [intros [_ [ev H]]; discriminate|].
      intros ev [[= <-]|H]; [split; reflexivity | discriminate].
    + split; [split; eauto|]. split; [split; [intros [ev H]|]; discriminate|].
      split; [intros [_ [ev H]]; discriminate|].
      intros ev [[= <-]|H]; [split; reflexivity | discriminate].
  - destruct (Py.contains SysMessageHandler.poke_text (message m)); cbn [negb].
    + destruct (Py.contains (lit "@chatroom") (sender m)).
      * split; [split; [intros [ev H]; discriminate | intros H; contradiction]|].
        split; [split; eauto|].
        split; [intros [[ev H] _]; discriminate|].
        intros ev [H|[= <-]]; [discriminate | split; reflexivity].
      * split; [split; [intros [ev H]; discriminate | intros H; contradiction]|].
        split; [split; eauto|].
        split; [intros [[ev H] _]; discriminate|].
        intros ev [H|[= <-]]; [discriminate | split; reflexivity].
    + split; [split; [intros [ev H]; discriminate | intros H; contradiction]|].
      split; [split; [intros [ev H]|]; discriminate|].
      split; [intros [[ev H] _]; discriminate|].
      intros ev [H|H]; discriminate.
Qed.

(** [handle_sys] never gives a notice: the two functions of the registry
    take [cls] and [msg], and the loop hands them the message alone, so the
    first call raises [TypeError]. *)
Theorem handle_sys_raises
  (env : Env) (self_ : Message.pyobj) (m : Message.WechatMessage) :
  call (MessageHandler.handle_sys (SYS_HANDLERS env)) [self_; OMsg m]
  = Fail (Builtin TypeError).
Proof. reflexivity. Qed.

(** ** App messages *)

Lemma APP_HANDLERS_four_parameters (env : Env) (t : Z) (h : pyfunc) :
  APP_HANDLERS env !! t = Some h -> length (params h) = 4%nat.
Proof.
  unfold APP_HANDLERS, add_app_handler.
  repeat (rewrite lookup_insert; case_decide; [intros [= <-]; reflexivity|]).
  rewrite lookup_empty. discriminate.
Qed.

(** The second dispatch falls through for a subtype without handler: when
    the payload parses and carries [appmsg/type] with an integer that is
    not in the registry, [handle_app] returns [None]. *)
Theorem handle_app_unregistered
  (env : Env) (handlers : gmap Z pyfunc) (self_ : Message.pyobj)
  (m : Message.WechatMessage) (xml_obj app : ET.Element)
  (type_text : option Py.str) (n : Z) :
  Message.ET_fromstring (base env) (message m) = Return xml_obj ->
  ET.find [lit "appmsg"] xml_obj = Some app ->
  find_text [lit "type"] app = Ok type_text ->
  int_ env type_text = Ok n ->
  handlers !! n = None ->
  call (MessageHandler.handle_app env handlers) [self_; OMsg m] = Ok None.
Proof.
  intros Hparse Happ Htype Hint Hnone. unfold call.
  cbn [MessageHandler.handle_app params body length Nat.eqb as_message rbind].
  unfold fromstring. rewrite Hparse. cbn [of_outcome rbind].
  rewrite Happ. cbn [rbind]. rewrite Htype. cbn [rbind].
  rewrite Hint. cbn [rbind]. rewrite Hnone. reflexivity.
Qed.

Lemma handle_app_unregistered_witness :
  call (MessageHandler.handle_app env0 (APP_HANDLERS env0))
    [OHandler Message.handler0; OMsg app_unknown]
  = Ok None.
Proof.
  refine (handle_app_unregistered env0 (APP_HANDLERS env0) _ app_unknown
            (ET.mkElement (lit "msg") [] None
               [ET.mkElement (lit "appmsg") [] None
                  [ET.mkElement (lit "type") [] (Some (lit "4")) [] None] None]
               None)
            (ET.mkElement (lit "appmsg") [] None
               [ET.mkElement (lit "type") [] (Some (lit "4")) [] None] None)
            (Some (lit "4")) 4 _ _ _ _ _).
  - vm_compute. reflexivity.
  - vm_compute. reflexivity.
  - vm_compute. reflexivity.
  - vm_compute. reflexivity.
  - reflexivity.
Defined.

(** With the registry of the file, [handle_app] never gives an event: the
    six functions registered take four parameters and are handed three, so
    a registered subtype ends in [TypeError]. *)
Theorem handle_app_never_an_event
  (env : Env) (self_ : Message.pyobj) (m : Message.WechatMessage) (ev : Event) :
  call (MessageHandler.handle_app env (APP_HANDLERS env)) [self_; OMsg m]
  <> Ok (Some ev).
Proof.
  unfold call at 1.
  cbn [MessageHandler.handle_app params body length Nat.eqb as_message rbind].
  destruct (fromstring env (message m)) as [xml_obj|e]; [|discriminate].
  cbn [rbind]. destruct (ET.find [lit "appmsg"] xml_obj) as [app|]; [|discriminate].
  cbn [rbind]. destruct (find_text [lit "type"] app) as [type_text|e]; [|discriminate].
  cbn [rbind]. destruct (int_ env type_text) as [n|e]; [|discriminate].
  cbn [rbind]. destruct (APP_HANDLERS env !! n) as [h|] eqn:Hh; [|discriminate].
  unfold call. rewrite (APP_HANDLERS_four_parameters _ _ _ Hh). discriminate.
Qed.

Lemma as_message_inv (o : Message.pyobj) (m : Message.WechatMessage) :
  as_message o = Ok m -> o = OMsg m.
Proof. destruct o; cbn; intros [= <-] || discriminate. reflexivity. Qed.

Lemma message_event_follows_sender
  (env : Env) (m : Message.WechatMessage) (segments : list Segment) :
  user_of (message_event env m segments) = wxid m
  /\ group_of (message_event env m segments)
     = if Py.contains (lit "@chatroom") (sender m) then Some (sender m)
       else None.
Proof.
  unfold message_event.
  destruct (Py.contains (lit "@chatroom") (sender m)); split; reflexivity.
Qed.

(** One step through a handler body that is known to return an event. *)
Ltac returned H :=
  repeat match type of H with
  | rbind ?r _ = Ok _ =>
      let E := fresh "E" in
      destruct r eqn:E; cbn [rbind] in H; [|discriminate H]
  | match ?x with _ => _ end = Ok _ =>
      let E := fresh "E" in
      destruct x eqn:E; try discriminate H
  | (if ?b then _ else _) = Ok _ =>
      let E := fresh "E" in
      destruct b eqn:E; try discriminate H
  end.

Ltac by_sender H :=
  match goal with
  | E : as_message ?msg = Ok ?m |- _ =>
      exists m; split; [exact (as_message_inv _ _ E)|];
      injection H as <-
  end.

(** Called with their four arguments, the handlers of links, files, quotes
    and mini programs give an event of the user [wxid], in the group
    [sender] exactly when [sender] contains "@chatroom". *)
Theorem app_events_follow_sender
  (env : Env) (h : pyfunc) (cls mh msg app : Message.pyobj) (ev : Event) :
  In h [AppMessageHandler.handle_link env; AppMessageHandler.handle_file env;
        AppMessageHandler.handle_quote env; AppMessageHandler.handle_app env] ->
  call h [cls; mh; msg; app] = Ok (Some ev) ->
  exists m,
    msg = OMsg m
    /\ user_of ev = wxid m
    /\ group_of ev
       = if Py.contains (lit "@chatroom") (sender m) then Some (sender m)
         else None.
Proof.
  intros Hin H. cbn [In] in Hin.
  destruct Hin as [<-|[<-|[<-|[<-|[]]]]]; unfold call in H;
    cbn [AppMessageHandler.handle_link AppMessageHandler.handle_file
         AppMessageHandler.handle_quote AppMessageHandler.handle_app
         params body length Nat.eqb] in H.
  - returned H; by_sender H; apply message_event_follows_sender.
  - returned H; by_sender H;
      try apply message_event_follows_sender;
      cbn [user_of group_of]; try (split; reflexivity).
    all: match goal with
         | E : Py.contains _ _ = _ |- _ => rewrite E; split; reflexivity
         end.
  - returned H; by_sender H; apply message_event_follows_sender.
  - returned H; by_sender H; apply message_event_follows_sender.
Qed.

Lemma app_events_follow_sender_witness :
  exists m,
    OMsg app_quote = OMsg m
    /\ user_of (GroupMessageEvent (head_of env0 app_quote) (lit "42")
                  [Reply (Some (lit "9")) (Some (lit "wx_a")); Text (Some (lit "ok"))]
                  (lit "wx_bob") (lit "123@chatroom"))
       = wxid m
    /\ group_of (GroupMessageEvent (head_of env0 app_quote) (lit "42")
                  [Reply (Some (lit "9")) (Some (lit "wx_a")); Text (Some (lit "ok"))]
                  (lit "wx_bob") (lit "123@chatroom"))
       = if Py.contains (lit "@chatroom") (sender m) then Some (sender m)
         else None.
Proof.
  refine (app_events_follow_sender env0 (AppMessageHandler.handle_quote env0)
            (OHandler Message.handler0) (OHandler Message.handler0)
            (OMsg app_quote)
            (OElem (ET.mkElement (lit "appmsg") [] None
               [ET.mkElement (lit "title") [] (Some (lit "ok")) [] None;
                ET.mkElement (lit "type") [] (Some (lit "57")) [] None;
                ET.mkElement (lit "refermsg") [] None
                  [ET.mkElement (lit "svrid") [] (Some (lit "9")) [] None;
                   ET.mkElement (lit "fromusr") [] (Some (lit "wx_a")) [] None]
                  None] None))
            _ _ _).
  - cbn [In]. right. right. left. reflexivity.
  - vm_compute. reflexivity.
Defined.

(** The announcement handler gives a notice of the group [sender] whatever
    [sender] is, also when it is no chat room; and the transfer handler
    gives no event. *)
Lemma announcement_is_always_a_group_notice
  (env : Env) (cls mh msg app : Message.pyobj) :
  (forall ev,
     call (AppMessageHandler.handle_announcement env) [cls; mh; msg; app]
     = Ok (Some ev) ->
     exists m, msg = OMsg m /\ user_of ev = wxid m /\ group_of ev = Some (sender m))
  /\ call AppMessageHandler.handle_transfer [cls; mh; msg; app] = Ok None.
Proof.
  split; [|reflexivity].
  intros ev H. unfold call in H.
  cbn [AppMessageHandler.handle_announcement params body length Nat.eqb] in H.
  returned H. by_sender H. split; reflexivity.
Qed.

(** ** Friend requests, cards and locations *)

Lemma item_ok (attrib : list (Py.str * Py.str)) (key : string) :
  is_Some (lookup (lit key) attrib) ->
  exists v, item attrib key = Ok v /\ lookup (lit key) attrib = Some v.
Proof. intros [v Hv]. exists v. unfold item. rewrite Hv. auto. Qed.

Lemma item_missing (attrib : list (Py.str * Py.str)) (key : string) :
  ~ is_Some (lookup (lit key) attrib) -> item attrib key = key_error.
Proof.
  unfold item. destruct (lookup (lit key) attrib); [|reflexivity].
  intros H. exfalso. apply H. eauto.
Qed.

(** A friend request whose payload parses gives an event exactly when the
    root element carries all eight attributes read, and the event is then
    about the user [fromusername]; with any of them missing the handler
    raises [KeyError]. *)
Theorem friend_request_needs_all_attributes
  (env : Env) (self_ : Message.pyobj) (m : Message.WechatMessage)
  (xml_obj : ET.Element) :
  Message.ET_fromstring (base env) (message m) = Return xml_obj ->
  let present :=
    Forall (fun key => is_Some (lookup (lit key) (ET.attrib xml_obj)))
      friend_request_keys in
  (present ->
   exists ev,
     call (MessageHandler.handle_friend_request env) [self_; OMsg m] = Ok (Some ev)
     /\ Some (user_of ev) = lookup (lit "fromusername") (ET.attrib xml_obj)
     /\ group_of ev = None)
  /\ (~ present ->
      call (MessageHandler.handle_friend_request env) [self_; OMsg m] = key_error).
Proof.
  intros Hparse present. subst present. unfold call.
  cbn [MessageHandler.handle_friend_request params body length Nat.eqb
       as_message rbind].
  unfold fromstring. rewrite Hparse. cbn [of_outcome rbind].
  unfold friend_request_keys. split.
  - intros Hall.
    repeat match goal with
    | H : Forall _ (_ :: _) |- _ =>
        let Hk := fresh "Hk" in
        apply Forall_cons in H as [Hk H];
        apply item_ok in Hk as (? & -> & ?)
    end.
    cbn [rbind]. eexists. split; [reflexivity|]. split; [|reflexivity].
    cbn [user_of]. congruence.
  - intros Hnot.
    repeat match goal with
    | |- rbind (item ?a ?k) _ = _ =>
        let v := fresh "v" in
        let E := fresh "E" in
        destruct (lookup (lit k) a) as [v|] eqn:E;
        [ unfold item at 1; rewrite E; cbn [rbind]
        | unfold item at 1; rewrite E; reflexivity ]
    end.
    exfalso. apply Hnot.
    repeat (constructor; [eauto|]). constructor.
Qed.

Lemma friend_request_needs_all_attributes_witness :
  call (MessageHandler.handle_friend_request env0)
    [OHandler Message.handler0; OMsg friend_no_ticket]
  = key_error.
Proof.
  refine (proj2 (friend_request_needs_all_attributes env0 _ friend_no_ticket
            (ET.mkElement (lit "msg")
               [(lit "fromusername", lit "wx_new");
                (lit "encryptusername", lit "v3_x");
                (lit "fromnickname", lit "New");
                (lit "content", lit "hi");
                (lit "country", lit "CN");
                (lit "province", lit "GD");
                (lit "city", lit "SZ")] None [] None) _) _).
  - vm_compute. reflexivity.
  - intros Hall. unfold friend_request_keys in Hall.
    apply Forall_cons in Hall as [_ Hall].
    apply Forall_cons in Hall as [_ Hall].
    apply Forall_cons in Hall as [[v Hv] _].
    vm_compute in Hv. discriminate Hv.
Defined.

(** The handlers of voices, cards, videos, emojis and locations follow
    the sender: whenever one of them, called on two arguments, gives an
    event, the argument is a message, the event is of its user [wxid],
    and it is a group event of group [sender] exactly when [sender]
    contains "@chatroom". *)
Theorem message_events_follow_sender
  (env : Env) (fs : Files) (h : pyfunc) (self_ msg : Message.pyobj) (ev : Event) :
  In h [MessageHandler.handle_voice env fs;
        MessageHandler.handle_card env; MessageHandler.handle_video env fs;
        MessageHandler.handle_emoji env fs; MessageHandler.handle_location env] ->
  call h [self_; msg] = Ok (Some ev) ->
  exists m,
    msg = OMsg m
    /\ user_of ev = wxid m
    /\ group_of ev
       = if Py.contains (lit "@chatroom") (sender m) then Some (sender m)
         else None.
Proof.
  intros Hin H. cbn [In] in Hin.
  destruct Hin as [<-|[<-|[<-|[<-|[<-|[]]]]]]; unfold call in H;
    cbn [MessageHandler.handle_voice
         MessageHandler.handle_card MessageHandler.handle_video
         MessageHandler.handle_emoji MessageHandler.handle_location
         params body length Nat.eqb] in H;
    returned H; by_sender H; apply message_event_follows_sender.
Qed.

Lemma message_events_follow_sender_witness :
  exists m,
    OMsg location_pin = OMsg m
    /\ user_of (PrivateMessageEvent (head_of env0 location_pin) (lit "42")
                  [Location (lit "1.5") (lit "2.5") (lit "Home") (lit "Here")]
                  (lit "wx_bob"))
       = wxid m
    /\ group_of (PrivateMessageEvent (head_of env0 location_pin) (lit "42")
                  [Location (lit "1.5") (lit "2.5") (lit "Home") (lit "Here")]
                  (lit "wx_bob"))
       = if Py.contains (lit "@chatroom") (sender m) then Some (sender m)
         else None.
Proof.
  refine (message_events_follow_sender env0 files0
            (MessageHandler.handle_location env0)
            (OHandler Message.handler0) (OMsg location_pin) _ _ _).
  - cbn [In]. do 4 right. left. reflexivity.
  - vm_compute. reflexivity.
Defined.

(** An image never reaches the file cache: [handle_image] hands
    [_find_file], which takes one parameter, the instance and the path, and
    the call raises [TypeError], whatever files exist. *)
Theorem handle_image_raises
  (env : Env) (fs : Files) (h : Message.MessageHandler)
  (m : Message.WechatMessage) :
  call (MessageHandler.handle_image env fs) [OHandler h; OMsg m]
  = Fail (Builtin TypeError).
Proof. reflexivity. Qed.

End HandlersFacts.

(* ===================================================================== *)
(** * More about the action dispatcher *)
(* ===================================================================== *)

Module ManagerMore.

Import Manager ManagerProps.

(** ** Tame computations *)

Lemma tame_ret {A} (a : A) : tame (ret a).
Proof.
  intros calls. exists (Return a), calls. repeat split; [reflexivity | discriminate].
Qed.

Lemma tame_raise {A} (e : exn) : Py.is_Exception e = true -> tame (@raise A e).
Proof.
  intros He calls. exists (Raise e), calls.
  repeat split; [reflexivity | congruence].
Qed.

Lemma tame_lift {A} (o : outcome A) :
  (forall e, o = Raise e -> Py.is_Exception e = true) -> tame (lift o).
Proof.
  intros Ho calls. exists o, calls. repeat split; [reflexivity | exact Ho].
Qed.

Lemma tame_com (w : World) (name : string) (args_ : list pyval) :
  raises_only_Exception w -> tame (com w name args_).
Proof.
  intros Hw calls. unfold com. eexists. eexists. split; [reflexivity|].
  split; [apply prefix_app_r; reflexivity | intros e He; exact (Hw _ _ _ He)].
Qed.

Lemma tame_mbind {A B} (m : M A) (k : A -> M B) :
  tame m -> (forall a, tame (k a)) -> tame (mbind m k).
Proof.
  intros Hm Hk calls. unfold mbind.
  destruct (Hm calls) as (o & calls1 & -> & Hpre & Hexc).
  destruct o as [a|e].
  - destruct (Hk a calls1) as (o2 & calls2 & -> & Hpre2 & Hexc2).
    exists o2, calls2. repeat split; [etrans; eassumption | exact Hexc2].
  - exists (Raise e), calls1. repeat split; [exact Hpre|].
    intros e' [= <-]. apply Hexc. reflexivity.
Qed.

Lemma tame_mapM {A B} (f : A -> M B) (l : list A) :
  (forall a, tame (f a)) -> tame (mapM f l).
Proof.
  intros Hf. induction l as [|a l IH]; simpl.
  - apply tame_ret.
  - apply tame_mbind; [apply Hf|]. intros b.
    apply tame_mbind; [exact IH|]. intros bs. apply tame_ret.
Qed.

Lemma getitem_Exception (v : pyval) (key : Py.str) (e : exn) :
  getitem v key = Raise e -> Py.is_Exception e = true.
Proof.
  unfold getitem. destruct v; try (intros [= <-]; reflexivity).
  destruct (assoc key d); [discriminate | intros [= <-]; reflexivity].
Qed.

Lemma iter_Exception (v : pyval) (e : exn) :
  iter v = Raise e -> Py.is_Exception e = true.
Proof. destruct v; simpl; try discriminate; intros [= <-]; reflexivity. Qed.

Lemma bind_params_Exception (ps : list (Py.str * option pyval))
  (kwargs : gmap Py.str pyval) (e : exn) :
  bind_params ps kwargs = Raise e -> e = TypeError.
Proof.
  induction ps as [|[name default] ps IH]; simpl; [discriminate|].
  destruct (kwargs !! name) as [v|]; [|destruct default as [v|]]; simpl.
  - destruct (bind_params ps kwargs); simpl; [discriminate|].
    intros [= <-]. apply IH. reflexivity.
  - destruct (bind_params ps kwargs); simpl; [discriminate|].
    intros [= <-]. apply IH. reflexivity.
  - intros [= <-]. reflexivity.
Qed.

Lemma tame_call_method (f : pymethod) (kwargs : gmap Py.str pyval) :
  (forall vs, tame (body f vs)) -> tame (call_method f kwargs).
Proof.
  intros Hf. unfold call_method.
  destruct (forallb _ _).
  - apply tame_mbind; [|exact Hf]. apply tame_lift.
    intros e He. apply bind_params_Exception in He. subst e. reflexivity.
  - apply tame_raise. reflexivity.
Qed.

Lemma tame_method0 (b : M pyval) (kwargs : gmap Py.str pyval) :
  tame b -> tame (call_attribute (method0 b) kwargs).
Proof. intros Hb. apply tame_call_method. intros vs. exact Hb. Qed.

Lemma tame_method1 (p : string) (b : pyval -> M pyval)
  (kwargs : gmap Py.str pyval) :
  (forall v, tame (b v)) -> tame (call_attribute (method1 p b) kwargs).
Proof.
  intros Hb. apply tame_call_method. intros vs. cbn [body].
  destruct vs as [|v1 [|v2 vs]]; first [apply Hb | apply tame_raise; reflexivity].
Qed.

Lemma tame_method2 (p1 p2 : string) (b : pyval -> pyval -> M pyval)
  (kwargs : gmap Py.str pyval) :
  (forall v1 v2, tame (b v1 v2)) -> tame (call_attribute (method2 p1 p2 b) kwargs).
Proof.
  intros Hb. apply tame_call_method. intros vs. cbn [body].
  destruct vs as [|v1 [|v2 [|v3 vs]]];
    first [apply Hb | apply tame_raise; reflexivity].
Qed.

Ltac tame_step :=
  first [ apply tame_ret
        | apply tame_com; assumption
        | apply tame_lift; first [apply getitem_Exception | apply iter_Exception]
        | apply tame_raise; reflexivity
        | apply tame_mapM; intros
        | apply tame_mbind; [|intros] ].

Ltac tame_body := repeat tame_step.

Lemma tame_declared (w : World) (fuel : nat) (name : Py.str) :
  raises_only_Exception w ->
  is_declared name = true ->
  exists a, getattr (manager w fuel) name = Return a
            /\ forall kwargs, tame (call_attribute a kwargs).
Proof.
  intros Hw Hdecl. unfold is_declared in Hdecl.
  apply existsb_exists in Hdecl. destruct Hdecl as (x & Hin & Heq).
  apply bool_decide_eq_true in Heq. subst x.
  change ACTION_LIST with
    (List.map lit
       ["send_message"; "get_self_info"; "get_user_info"; "get_friend_list";
        "get_group_info"; "get_group_list"; "get_group_member_info";
        "get_group_member_list"; "set_group_name"; "leave_group"]%string) in Hin.
  cbn [List.map List.In] in Hin.
  destruct Hin as [<-|[<-|[<-|[<-|[<-|[<-|[<-|[<-|[<-|[<-|[]]]]]]]]]]].
  - eexists. split; [reflexivity|]. intros kwargs.
    apply tame_call_method. intros vs. cbn [body].
    repeat (destruct vs as [|? vs]; try (apply tame_raise; reflexivity)).
    apply tame_ret.
  - exists (method0 (get_self_info w)). split; [reflexivity|]. intros kwargs.
    apply tame_method0. unfold get_self_info. tame_body.
  - exists (method1 "user_id" (get_user_info w)). split; [reflexivity|].
    intros kwargs. apply tame_method1. intros v. unfold get_user_info. tame_body.
  - exists (method0 (get_friend_list w)). split; [reflexivity|]. intros kwargs.
    apply tame_method0. unfold get_friend_list. tame_body.
  - exists (method1 "group_id" (get_group_info w)). split; [reflexivity|].
    intros kwargs. apply tame_method1. intros v. unfold get_group_info. tame_body.
  - exists (method0 (get_group_list w)). split; [reflexivity|]. intros kwargs.
    apply tame_method0. unfold get_group_list. tame_body.
  - exists (method2 "group_id" "user_id" (get_group_member_info w)).
    split; [reflexivity|]. intros kwargs. apply tame_method2. intros v1 v2.
    unfold get_group_member_info. tame_body.
  - exists (method1 "group_id" (get_group_member_list w)). split; [reflexivity|].
    intros kwargs. apply tame_method1. intros v.
    unfold get_group_member_list. tame_body.
  - exists (method2 "group_id" "group_name" (set_group_name w)).
    split; [reflexivity|]. intros kwargs. apply tame_method2. intros v1 v2.
    unfold set_group_name. tame_body.
  - exists (method1 "group_id" (leave_group w)). split; [reflexivity|].
    intros kwargs. apply tame_method1. intros v. unfold leave_group. tame_body.
Qed.

(** A declared action is always answered: whatever the parameters, and as
    long as the capability raises nothing but exceptions of class
    [Exception], [request] returns a response of status 200 or 500, and it
    only adds to the calls made on the capability. *)
Theorem declared_action_always_answered
  (w : World) (fuel : nat) (req : ActionRequest) (calls : list com_call) :
  raises_only_Exception w ->
  is_declared (action req) = true ->
  exists response calls',
    request (manager w fuel) req calls = Res (Return response) calls'
    /\ calls `prefix_of` calls'
    /\ (is_ok response = true \/ is_internal_error response = true).
Proof.
  intros Hw Hdecl.
  destruct (tame_declared w fuel _ Hw Hdecl) as (a & Hget & Hbody).
  unfold request. rewrite Hget.
  destruct (Hbody (request_params req) calls) as (o & calls' & -> & Hpre & Hexc).
  destruct o as [v|e].
  - eexists. eexists. split; [reflexivity|]. split; [exact Hpre | left; reflexivity].
  - rewrite (Hexc e eq_refl). eexists. eexists. split; [reflexivity|].
    split; [exact Hpre | right; reflexivity].
Qed.

Lemma world_both_quiet : raises_only_Exception world_both /\ never_exits world_both.
Proof.
  split.
  - intros calls c e. unfold world_both. cbn [respond].
    repeat (destruct (String.eqb _ _)); discriminate.
  - intros calls c code. unfold world_both. cbn [respond].
    repeat (destruct (String.eqb _ _)); discriminate.
Qed.

Lemma declared_action_always_answered_witness :
  exists response calls',
    request (manager world_both 5) (plain_request "get_friend_list") []
    = Res (Return response) calls'
    /\ [] `prefix_of` calls'
    /\ (is_ok response = true \/ is_internal_error response = true).
Proof.
  exact (declared_action_always_answered world_both 5
           (plain_request "get_friend_list") [] (proj1 world_both_quiet) eq_refl).
Defined.

(** ** Parameters that do not bind *)

Lemma bind_params_missing (ps : list (Py.str * option pyval))
  (kwargs : gmap Py.str pyval) (p : Py.str) :
  In (p, None) ps -> kwargs !! p = None ->
  bind_params ps kwargs = Raise TypeError.
Proof.
  intros Hin Hnone. induction ps as [|[name default] ps IH]; [destruct Hin|].
  simpl. destruct Hin as [[= -> ->]|Hin].
  - rewrite Hnone. reflexivity.
  - rewrite (IH Hin).
    destruct (kwargs !! name) as [v|]; [|destruct default as [v|]]; reflexivity.
Qed.

Lemma unknown_keyword_rejected (ps : list (Py.str * option pyval))
  (kwargs : gmap Py.str pyval) (k : Py.str) (v : pyval) :
  kwargs !! k = Some v -> known_keyword ps k = false ->
  List.forallb (known_keyword ps) (List.map fst (map_to_list kwargs)) = false.
Proof.
  intros Hk Hunknown.
  destruct (List.forallb _ _) eqn:Hall; [|reflexivity].
  rewrite forallb_forall in Hall. rewrite <- Hunknown. symmetry. apply Hall.
  apply in_map_iff. exists (k, v). split; [reflexivity|].
  apply list_elem_of_In. apply elem_of_map_to_list. exact Hk.
Qed.

(** When the keywords of a request do not bind to the attribute its action
    names (it is no method, a keyword is unexpected, or a required
    parameter is missing), [request] answers with status 500 and makes no
    call on the capability. *)
Theorem request_unbindable_makes_no_call
  (self : instance) (req : ActionRequest) (a : attribute)
  (calls : list com_call) :
  getattr self (action req) = Return a ->
  unbindable a (request_params req) ->
  request self req calls = Res (Return error_response) calls.
Proof.
  intros Hget Hun. unfold request. rewrite Hget.
  destruct a as [f|]; cbn [call_attribute]; [|reflexivity].
  unfold call_method. destruct Hun as [(k & v & Hk & Hunknown)|(p & Hin & Hnone)].
  - rewrite (unknown_keyword_rejected _ _ _ _ Hk Hunknown). reflexivity.
  - destruct (List.forallb _ _); [|reflexivity].
    unfold mbind, lift. rewrite (bind_params_missing _ _ _ Hin Hnone). reflexivity.
Qed.

Lemma request_unbindable_makes_no_call_witness :
  request (manager world0 5) (plain_request "get_user_info") []
  = Res (Return error_response) [].
Proof.
  refine (request_unbindable_makes_no_call (manager world0 5)
            (plain_request "get_user_info")
            (method1 "user_id" (get_user_info world0)) [] eq_refl _).
  right. exists (lit "user_id"). split; [left; reflexivity | reflexivity].
Defined.

(** [send_message] sends nothing: whatever its parameters, the request is
    answered without any call on the capability, and an ok answer carries
    no data. *)
Theorem send_message_makes_no_call
  (w : World) (fuel : nat) (kwargs : gmap Py.str pyval) (calls : list com_call) :
  exists response,
    request (manager w fuel)
      {| action := lit "send_message"; request_params := kwargs |} calls
    = Res (Return response) calls
    /\ (is_ok response = true -> field "data" response = Some VNone).
Proof.
  unfold request. cbn [action request_params].
  change (getattr (manager w fuel) (lit "send_message"))
    with (Return (Method {|
            params := [required "detail_type"; required "message";
                       optional "user_id" VNone; optional "group_id" VNone;
                       optional "guild_id" VNone; optional "channel_id" VNone];
            body := fun vs =>
              match vs with
              | [a; b; c; d; e; f] => send_message a b c d e f
              | _ => raise TypeError
              end |})).
  cbn [call_attribute]. unfold call_method. cbn [params body].
  destruct (List.forallb _ _).
  - unfold mbind, lift.
    destruct (bind_params _ kwargs) as [vs|e] eqn:Hbind.
    + destruct vs as [|a [|b [|c [|d [|e [|f [|g vs]]]]]]];
        (eexists; split; [reflexivity|]); try discriminate. reflexivity.
    + apply bind_params_Exception in Hbind. subst e.
      eexists. split; [reflexivity | discriminate].
  - eexists. split; [reflexivity | discriminate].
Qed.

(** ** The member list *)

Lemma mapM_member_entry (members entries : list pyval) (calls : list com_call) :
  Forall2 lists_member members entries ->
  mapM member_entry members calls = Res (Return entries) calls.
Proof.
  intros H. induction H as [|member entry members entries Hm _ IH]; [reflexivity|].
  destruct Hm as (d & user_id & user_name & -> & Hid & Hname & ->).
  simpl. unfold mbind at 1. unfold member_entry at 1. unfold mbind, lift, getitem.
  rewrite Hid, Hname. cbn [ret]. fold (mapM member_entry).
  change (fun calls0 : list com_call =>
            match mapM member_entry members calls0 with
            | Res (Return a) calls' => ret (member_view user_id user_name :: a) calls'
            | Res (Raise e) calls' => Res (Raise e) calls'
            | OutOfFuel => OutOfFuel
            end)
    with (mbind (mapM member_entry members)
            (fun bs => ret (member_view user_id user_name :: bs))).
  unfold mbind. rewrite IH. reflexivity.
Qed.

(** When the capability lists the members of a group as mappings that each
    have a wxid and a name, [get_group_member_list] answers with one entry
    per member, in the same order, after this single call. *)
Theorem get_group_member_list_in_order
  (w : World) (group_id : pyval) (calls : list com_call)
  (members entries : list pyval) :
  respond w calls {| method := "get_group_members"; args := [group_id] |}
  = Return (VList members) ->
  Forall2 lists_member members entries ->
  get_group_member_list w group_id calls
  = Res (Return (ok_response (VList entries)))
        (calls ++ [{| method := "get_group_members"; args := [group_id] |}]).
Proof.
  intros Hanswer Hmembers. unfold get_group_member_list, mbind, com.
  rewrite Hanswer. cbn [lift iter].
  rewrite (mapM_member_entry _ _ _ Hmembers). reflexivity.
Qed.

Lemma get_group_member_list_in_order_witness :
  get_group_member_list world_both (VStr (lit "123@chatroom")) []
  = Res (Return (ok_response
                   (VList [member_view (VStr (lit "wx_a")) (VStr (lit "Ann"));
                           member_view (VStr (lit "wx_b")) (VStr (lit "Ben"))])))
        [{| method := "get_group_members"; args := [VStr (lit "123@chatroom")] |}].
Proof.
  refine (get_group_member_list_in_order world_both _ [] _ _ eq_refl _).
  repeat constructor.
  - exists [(lit "wxid", VStr (lit "wx_a")); (lit "name", VStr (lit "Ann"))].
    eexists. eexists. repeat split; reflexivity.
  - exists [(lit "wxid", VStr (lit "wx_b")); (lit "name", VStr (lit "Ben"))].
    eexists. eexists. repeat split; reflexivity.
Defined.

(** ** Start-up *)

Lemma wait_for_login_shape
  (w : World) (fuel : nat) (calls calls' : list com_call) (o : outcome pyval) :
  wait_for_login w fuel calls = Res o calls' ->
  exists n,
    (n < fuel)%nat
    /\ calls' = calls ++ repeat (call0 "is_wechat_login") (S n)
    /\ let last_poll :=
         respond w (calls ++ repeat (call0 "is_wechat_login") n)
           (call0 "is_wechat_login") in
       (o = Return (VBool true)
        /\ exists v, last_poll = Return v /\ truthy v = true)
       \/ (o = Return (VBool false) /\ last_poll = Raise KeyboardInterrupt)
       \/ (exists e, o = Raise e /\ e <> KeyboardInterrupt /\ last_poll = Raise e).
Proof.
  revert calls. induction fuel as [|fuel IH]; intros calls; [discriminate|].
  cbn [wait_for_login]. unfold com.
  fold (call0 "is_wechat_login").
  destruct (respond w calls (call0 "is_wechat_login")) as [v|e] eqn:Hpoll.
  - destruct (truthy v) eqn:Hv.
    + intros [= <- <-]. exists 0%nat. cbn [repeat]. rewrite app_nil_r.
      split; [lia|]. split; [reflexivity|]. left. split; [reflexivity|].
      exists v. split; assumption.
    + intros H. apply IH in H. destruct H as (n & Hn & -> & Hlast).
      exists (S n). split; [lia|]. split.
      * cbn [repeat]. rewrite <- app_assoc. reflexivity.
      * cbn [repeat]. cbn zeta in Hlast. rewrite <- app_assoc in Hlast.
        exact Hlast.
  - assert (Hshape :
      (e = KeyboardInterrupt
       /\ o = Return (VBool false) /\ calls' = calls ++ [call0 "is_wechat_login"])
      \/ (e <> KeyboardInterrupt
          /\ o = Raise e /\ calls' = calls ++ [call0 "is_wechat_login"]) ->
      exists n,
        (n < S fuel)%nat
        /\ calls' = calls ++ repeat (call0 "is_wechat_login") (S n)
        /\ let last_poll :=
             respond w (calls ++ repeat (call0 "is_wechat_login") n)
               (call0 "is_wechat_login") in
           (o = Return (VBool true)
            /\ exists v, last_poll = Return v /\ truthy v = true)
           \/ (o = Return (VBool false) /\ last_poll = Raise KeyboardInterrupt)
           \/ (exists e, o = Raise e /\ e <> KeyboardInterrupt /\ last_poll = Raise e)).
    { intros Hcases. exists 0%nat. cbn [repeat]. rewrite app_nil_r.
      split; [lia|]. rewrite Hpoll.
      destruct Hcases as [(-> & -> & ->)|(Hne & -> & ->)].
      - split; [reflexivity|]. right. left. split; reflexivity.
      - split; [reflexivity|]. right. right. exists e. repeat split; assumption. }
    intros H. apply Hshape.
    destruct e; injection H as <- <-;
      first [ left; repeat split; reflexivity
            | right; repeat split; [discriminate | reflexivity ..] ].
Qed.



(** With a capability that never raises [SystemExit] itself, [init] leaves
    through [exit] only with code 0, and then either the very first call
    ([init]) was the last one, or the last call closed the capability; and
    when [init] returns, it returns [None] after the three start-up calls
    and at least one poll of the login. *)
Theorem init_exit_discipline
  (w : World) (fuel : nat) (calls calls' : list com_call) (o : outcome pyval) :
  never_exits w ->
  init w fuel calls = Res o calls' ->
  match o with
  | Return v =>
      v = VNone
      /\ exists n,
           calls' = calls ++ [call0 "init"; call0 "init_wechat_pid";
                              call0 "start_service"]
                    ++ repeat (call0 "is_wechat_login") (S n)
  | Raise (SystemExit code) =>
      code = 0
      /\ (calls' = calls ++ [call0 "init"]
          \/ exists before, calls' = before ++ [call0 "close"])
  | Raise _ => True
  end.
Proof.
  intros Hw. unfold init, mbind, exit, raise, ret, com.
  fold (call0 "init") (call0 "init_wechat_pid") (call0 "start_service")
       (call0 "close").
  set (c1 := calls ++ [call0 "init"]).
  destruct (respond w calls (call0 "init")) as [v1|e1] eqn:H1.
  2:{ intros [= <- <-]. destruct e1; try exact I. destruct (Hw _ _ _ H1). }
  destruct (truthy v1); cbn [negb].
  2:{ intros [= <- <-]. split; [reflexivity | left; reflexivity]. }
  set (c2 := c1 ++ [call0 "init_wechat_pid"]).
  destruct (respond w c1 (call0 "init_wechat_pid")) as [v2|e2] eqn:H2.
  2:{ intros [= <- <-]. destruct e2; try exact I. destruct (Hw _ _ _ H2). }
  destruct (truthy v2); cbn [negb].
  2:{ destruct (respond w c2 (call0 "close")) as [v|e] eqn:Hc; intros [= <- <-].
      - split; [reflexivity | right; eexists; reflexivity].
      - destruct e; try exact I. destruct (Hw _ _ _ Hc). }
  set (c3 := c2 ++ [call0 "start_service"]).
  destruct (respond w c2 (call0 "start_service")) as [v3|e3] eqn:H3.
  2:{ intros [= <- <-]. destruct e3; try exact I. destruct (Hw _ _ _ H3). }
  destruct (truthy v3); cbn [negb].
  2:{ destruct (respond w c3 (call0 "close")) as [v|e] eqn:Hc; intros [= <- <-].
      - split; [reflexivity | right; eexists; reflexivity].
      - destruct e; try exact I. destruct (Hw _ _ _ Hc). }
  destruct (wait_for_login w fuel c3) as [o4 c4|] eqn:Hwait; [|discriminate].
  apply wait_for_login_shape in Hwait.
  destruct Hwait as (n & Hn & -> & Hlast). cbn zeta in Hlast.
  destruct Hlast as [(-> & _)|[(-> & _)|(e & -> & Hne & Hpoll)]].
  - cbn [truthy negb]. intros [= <- <-]. split; [reflexivity|].
    exists n. subst c3 c2 c1. rewrite <- !app_assoc. reflexivity.
  - cbn [truthy negb].
    destruct (respond w _ (call0 "close")) as [v|e] eqn:Hc; intros [= <- <-].
    + split; [reflexivity | right; eexists; reflexivity].
    + destruct e; try exact I. destruct (Hw _ _ _ Hc).
  - intros [= <- <-]. destruct e; try exact I. destruct (Hw _ _ _ Hpoll).
Qed.

Lemma init_exit_discipline_witness :
  0 = 0
  /\ ([call0 "init"] = [] ++ [call0 "init"]
      \/ exists before, [call0 "init"] = before ++ [call0 "close"]).
Proof.
  refine (init_exit_discipline world0 5 [] [call0 "init"]
            (Raise (SystemExit 0)) _ eq_refl).
  intros calls c code. unfold world0. cbn [respond].
  repeat (destruct (String.eqb _ _)); discriminate.
Defined.

(** [get_wxid] and the action [get_self_info] ask the capability the same
    question and read different keys of its answer: both succeed only on
    an answer that is a mapping with the keys wxId, WxId and Name. *)
Theorem self_info_keys
  (w : World) (calls calls1 calls2 : list com_call) (v r : pyval) :
  get_wxid w calls = Res (Return v) calls1 ->
  get_self_info w calls = Res (Return r) calls2 ->
  exists d,
    respond w calls (call0 "get_self_info") = Return (VDict d)
    /\ assoc (lit "wxId") d = Some v
    /\ is_Some (assoc (lit "WxId") d)
    /\ is_Some (assoc (lit "Name") d).
Proof.
  unfold get_wxid, get_self_info, mbind, com, lift, getitem.
  fold (call0 "get_self_info").
  destruct (respond w calls (call0 "get_self_info")) as [info|e]; [|discriminate].
  destruct info; try discriminate.
  destruct (assoc (lit "wxId") d) as [x|] eqn:Hx; [|discriminate].
  intros [= <- <-].
  destruct (assoc (lit "WxId") d) as [y|] eqn:Hy; [|discriminate].
  destruct (assoc (lit "Name") d) as [z|] eqn:Hz; [|discriminate].
  intros _. exists d. repeat split; eauto.
Qed.

Lemma self_info_keys_witness :
  exists d,
    respond world_both [] (call0 "get_self_info") = Return (VDict d)
    /\ assoc (lit "wxId") d = Some (VStr (lit "abc"))
    /\ is_Some (assoc (lit "WxId") d)
    /\ is_Some (assoc (lit "Name") d).
Proof.
  refine (self_info_keys world_both [] _ _ (VStr (lit "abc")) _ eq_refl eq_refl).
Defined.

End ManagerMore.

(* ===================================================================== *)
(** * More about the gateway *)
(* ===================================================================== *)

Module GatewayMore.

Import Gateway Forward.

(** The decision of the access-token check: a request passes exactly when
    no secret is configured or the token it presents is the secret; a
    refusal has status 403, and says that the header is missing when no
    token (or an empty one) was presented, that it is invalid otherwise. *)
Theorem check_decision
  (get_auth_bearer : option Py.str -> option Py.str)
  (config : Config) (r : Request) :
  let presented := get_auth_bearer (headers r !! lit "Authorization") in
  (_check_access_token get_auth_bearer config r = None
   <-> (truthy (onebot_access_token config) = false
        \/ presented = onebot_access_token config))
  /\ (forall response,
         _check_access_token get_auth_bearer config r = Some response ->
         status_code response = 403
         /\ content response
            = if truthy presented then lit "Authorization Header is invalid"
              else lit "Missing Authorization Header").
Proof.
  cbn zeta. unfold _check_access_token.
  destruct (truthy (onebot_access_token config)) eqn:Hsecret; cbn [andb].
  - destruct (bool_decide_reflect
                (onebot_access_token config
                 = get_auth_bearer (headers r !! lit "Authorization")))
      as [Heq|Hne]; cbn [negb].
    + split; [|discriminate]. split; [intros _; right; congruence | reflexivity].
    + split.
      * split; [discriminate | intros [H|H]; [discriminate | congruence]].
      * intros response [= <-]. split; reflexivity.
  - split; [|discriminate]. split; [intros _; left; reflexivity | reflexivity].
Qed.

(** A forward request carries what the check asks for: built from a
    configuration, it passes the access-token check of a gateway with the
    same configuration, provided [get_auth_bearer] gives back what follows
    "Bearer ". *)
Theorem forward_request_passes_own_check
  (get_auth_bearer : option Py.str -> option Py.str) (config : Config) :
  (forall token, get_auth_bearer (Some (lit "Bearer " ++ token)) = Some token) ->
  _check_access_token get_auth_bearer config (forward_request config) = None.
Proof.
  intros Hbearer. unfold _check_access_token, forward_request, forward_headers.
  cbn [headers].
  destruct (onebot_access_token config) as [[|c token]|] eqn:Hsecret;
    cbn [truthy andb]; try reflexivity.
  rewrite lookup_singleton_eq, Hbearer.
  rewrite bool_decide_eq_true_2 by reflexivity. reflexivity.
Qed.

Lemma bearer_token_of_header (token : Py.str) :
  bearer_token (Some (lit "Bearer " ++ token)) = Some token.
Proof. reflexivity. Qed.

Lemma forward_request_passes_own_check_witness :
  _check_access_token bearer_token secret_config (forward_request secret_config)
  = None.
Proof.
  exact (forward_request_passes_own_check bearer_token secret_config
           bearer_token_of_header).
Defined.

Section AnyDriver.

Variable Driver : Type.
Variable ws_connect : Driver -> WebSocket -> nat * Driver.
Variable ws_disconnect : Driver -> nat -> Driver.

Local Abbreviation forward := (_forward_ws ws_connect ws_disconnect).


(** A forward connection ends only through an exception raised by a sleep,
    or through one outside the class [Exception] raised on opening or
    while reading. *)
Theorem forward_ends_only_by
  (script : list attempt) (d d' : Driver) (sleeps sleeps' : nat) (e : exn) :
  forward script d sleeps = (Ended e, d', sleeps') ->
  Exists (may_end_with e) script.
Proof.
  revert d sleeps. induction script as [|a script IH]; intros d sleeps;
    cbn [_forward_ws]; [discriminate|].
  destruct (opening a) as [ws|e1] eqn:Hopen.
  - destruct (ws_connect d ws) as [seq d1].
    destruct (read_loop (incoming a)) as [e2|] eqn:Hread; [|discriminate].
    destruct (Py.is_Exception e2) eqn:He2.
    + destruct (sleeping a) as [u|e3] eqn:Hsleep.
      * intros H. apply Exists_cons_tl. exact (IH _ _ H).
      * intros [= <- <- <-]. apply Exists_cons_hd. left. exact Hsleep.
    + intros [= <- <- <-]. apply Exists_cons_hd. right.
      split; [exact He2|]. right. exists ws. split; [exact Hopen | exact Hread].
  - destruct (Py.is_Exception e1) eqn:He1.
    + destruct (sleeping a) as [u|e3] eqn:Hsleep.
      * intros H. apply Exists_cons_tl. exact (IH _ _ H).
      * intros [= <- <- <-]. apply Exists_cons_hd. left. exact Hsleep.
    + intros [= <- <- <-]. apply Exists_cons_hd. right.
      split; [exact He1|]. left. exact Hopen.
Qed.

End AnyDriver.


Lemma forward_ends_only_by_witness :
  Exists (may_end_with KeyboardInterrupt) interrupted.
Proof.
  exact (forward_ends_only_by Driver0 ws_connect0 ws_disconnect0 interrupted
           {| next_seq := 0; connects := ∅ |} {| next_seq := 0; connects := ∅ |}
           0 0 KeyboardInterrupt eq_refl).
Defined.

(** On a manager as [__init__] leaves it, [_start_forward] starts no task,
    whatever urls are configured and whatever [URL] does with them: the
    attribute [tasks] it appends to was never assigned, and the handler of
    the loop takes the [AttributeError]; [_stop_forward] then raises
    [AttributeError]. *)
Theorem start_forward_starts_nothing
  (URL : Py.str -> outcome Py.str) (done : Py.str -> bool)
  (urls : list Py.str) :
  snd (_start_forward URL (__init__ urls)) = __init__ urls
  /\ _stop_forward done (snd (_start_forward URL (__init__ urls)))
     = Raise AttributeError.
Proof.
  assert (H : forall l self, tasks self = None -> snd (start_loop URL l self) = self).
  { induction l as [|url l IH]; intros self Hnone; cbn [start_loop]; [reflexivity|].
    destruct (URL url) as [ws_url|e].
    - rewrite Hnone. apply IH. exact Hnone.
    - destruct (Py.is_Exception e); [apply IH; exact Hnone | reflexivity]. }
  unfold _start_forward. rewrite H by reflexivity. split; reflexivity.
Qed.

End GatewayMore.

(* ===================================================================== *)
(** * Properties of the event parser *)
(* ===================================================================== *)

Module EventsFacts.

Import Events.

Section AnyModels.

Variables json model event : Type.
Variable is_dict : json -> bool.
Variable flattened_to_nested : json -> outcome json.
Variable key_of : json -> outcome Py.str.
Variable parse_obj : model -> json -> outcome event.
Variable Event_parse_obj : json -> outcome event.
Variable event_models : option (Py.str -> option (json -> stream model)).


(** Called as its two parameters ask, [get_event_model] gives the models
    of the tree under the frame's key before those of the tree under the
    empty key, and fails without the latter. *)
Lemma get_event_model_order
  (models : Py.str -> option (json -> stream model))
  (j : json) (key : Py.str) (first fallback : list model)
  (get_first get_fallback : json -> stream model) :
  key_of j = Return key ->
  models key = Some get_first -> get_first j = (first, None) ->
  models [] = Some get_fallback -> get_fallback j = (fallback, None) ->
  get_event_model_body key_of (Some models) AClass (AData j)
  = (first ++ fallback, None).
Proof.
  intros Hkey Hfirst Hf Hfallback Hb. unfold get_event_model_body.
  rewrite Hkey, Hfirst, Hf. cbn [then_]. rewrite Hfallback, Hb. reflexivity.
Qed.

End AnyModels.

End EventsFacts.
